(** * SystemManagerCommon: service teardown, close handshake and lifecycle

    A shallow embedding of [module-sys/SystemManager/SystemManagerCommon.cpp].
    The system manager object is a record; every member function is a
    function from the object to the object (state passing).  Everything the
    manager does to the outside world (messages put on the bus, synchronous
    requests, timer operations, calls into a service, log lines) is appended,
    in program order, to the [trace] field, so that the order of the actions
    can be read off the trace. *)

From Stdlib Require Import List String Bool Arith Lia.
Import ListNotations.
Local Open Scope string_scope.
Local Open Scope list_scope.

(** ** Enumerations *)

(** Modelled from the spec: [SystemManagerCommon::State] is declared in
    SystemManagerCommon.hpp, which is absent; the enumerators are the five
    states the spec lists, which are also the only ones the source names. *)
Module State.
Inductive t := Running | Shutdown | ShutdownReady | Reboot | RebootToUpdate.

Definition eqb (a b : t) : bool :=
  match a, b with
  | Running, Running | Shutdown, Shutdown | ShutdownReady, ShutdownReady
  | Reboot, Reboot | RebootToUpdate, RebootToUpdate => true
  | _, _ => false
  end.
End State.

(** Modelled from the spec: the [CloseReason] enum (header absent); the four
    reasons the source file uses. *)
Module CloseReason.
Inductive t := RegularPowerDown | LowBattery | SystemBrownout | Reboot.
End CloseReason.

(** The [Code] of a [SystemManagerCmd], as switched on in [InitHandler]. *)
Module Code.
Inductive t := CloseSystem | Update | Restore | Reboot | RebootToUpdate | None.
End Code.

(** Modelled from the spec: [sys::ReturnCodes] (header absent).  The source
    only ever compares a return code with [Success]. *)
Module ReturnCodes.
Inductive t := Success | Failure | Timeout.

Definition is_success (r : t) : bool :=
  match r with Success => true | _ => false end.
End ReturnCodes.

(** Modelled from the spec: [Store::Battery] (EventStore.hpp absent).  The
    source compares [state] with [Discharging] only and switches on the four
    values of [levelState]. *)
Module Battery.
Inductive State := Discharging | Charging.
Inductive LevelState := Normal | Shutdown | CriticalCharging | CriticalNotCharging.

Record t := mk { state : State; levelState : LevelState }.

Definition is_discharging (b : t) : bool :=
  match state b with Discharging => true | Charging => false end.
End Battery.

Module Tethering.
Inductive t := Off | On.

Definition eqb (a b : t) : bool :=
  match a, b with Off, Off | On, On => true | _, _ => false end.
End Tethering.

Module PhoneMode.
Inductive t := Connected | DoNotDisturb | Offline.
End PhoneMode.

Module StartupType.
Inductive t := Regular | LowBattery | LowBatteryCharging.
End StartupType.

Inductive BusChannel := SystemManagerRequests | OtherChannel.

(** Modelled from the spec: [UpdateReason] (header absent) is carried
    through to the platform reboot primitive untouched; it is represented by
    the underlying value of the enumerator. *)
Definition UpdateReason := nat.

(** ** Services, timers, effects *)

(** What the manager uses of a [std::shared_ptr<Service>]: its name and the
    return code of its [DeinitHandler]. *)
Record Service := mkService {
  GetName : string;
  DeinitHandler : ReturnCodes.t
}.

(** Modelled from the spec: [sys::TimerHandle] (Timers/ absent): a timer is
    armed or disarmed, [start] arms it, [stop] disarms it, and its callback
    is delivered as a message that runs the callback only while armed. *)
Record TimerHandle := mkTimer { isActive : bool }.

Inductive TimerId := servicesPreShutdownRoutine | lowBatteryShutdownDelayTimer.

(** Messages the manager puts on the bus with [bus.sendUnicast]. *)
Inductive OutMessage :=
| ServiceCloseReasonMessage (closeReason : CloseReason.t)
| CriticalBatteryLevelNotification (isActive charging : bool)
| TetheringQuestionRequest
| TetheringQuestionAbort
| TetheringPhoneModeChangeProhibitedMessage
| RequestPhoneModeForceUpdate
| StartAllowedMessage (startupType : StartupType.t).

(** The log lines of the functions embedded here. *)
Inductive LogLine :=
| LogStateChange (from to : State.t)
| LogInvokingClosingProcedure
| LogDidNotReportBeforeTimeout (element : string)
| LogDelayClosing (name : string)
| LogDidNotRespondToKill (name : string)
| LogServiceToCloseDidNotRespond (name : string)
| LogNoticedFailureAtClose (name : string)
| LogDeinitHandler (ret : ReturnCodes.t)
| LogNoSuchService (name : string)
| LogReadyToClose (sender : string)
| LogAllServicesReady
| LogBatteryCritical
| LogBatteryTooLow
| LogBatteryNormal
| LogBrownout
| LogPhoneModeRequested
| LogPhoneModeWhenTethering
| LogTetheringRequested
| LogTetheringRefused
| LogDisablingTethering
| LogEnteringRestore
| LogEnteredRestore
| LogStartingUpdate
| LogIgnoredOnShutdown (sender : string)
| LogFatalState (s : State.t).

Inductive Effect :=
| Log (line : LogLine)
| sendUnicast (msg : OutMessage) (target : string)
| sendUnicastSyncExit (target : string)
| sendUnicastSyncStart (target : string)
| StartService (name : string)
| callDeinitHandler (name : string)
| callCloseHandler (name : string)
| TimerCreate (id : TimerId)
| TimerStart (id : TimerId)
| TimerStop (id : TimerId)
| ChangeModulePowerState (on : bool)
| CloseService
| EndScheduler.

(** ** The system manager object *)

Record SystemManagerCommon := mkSM {
  state : State.t;
  updateReason : UpdateReason;
  servicesList : list Service;
  readyForCloseRegister : list string;
  servicesPreShutdownRoutineTimeout : TimerHandle;
  lowBatteryShutdownDelay : TimerHandle;
  phoneMode : PhoneMode.t;
  tetheringMode : Tethering.t;
  trace : list Effect
}.

Definition with_state (x : State.t) (s : SystemManagerCommon) :=
  mkSM x (updateReason s) (servicesList s) (readyForCloseRegister s)
       (servicesPreShutdownRoutineTimeout s) (lowBatteryShutdownDelay s)
       (phoneMode s) (tetheringMode s) (trace s).

Definition with_updateReason (x : UpdateReason) (s : SystemManagerCommon) :=
  mkSM (state s) x (servicesList s) (readyForCloseRegister s)
       (servicesPreShutdownRoutineTimeout s) (lowBatteryShutdownDelay s)
       (phoneMode s) (tetheringMode s) (trace s).

Definition with_servicesList (x : list Service) (s : SystemManagerCommon) :=
  mkSM (state s) (updateReason s) x (readyForCloseRegister s)
       (servicesPreShutdownRoutineTimeout s) (lowBatteryShutdownDelay s)
       (phoneMode s) (tetheringMode s) (trace s).

Definition with_readyForCloseRegister (x : list string) (s : SystemManagerCommon) :=
  mkSM (state s) (updateReason s) (servicesList s) x
       (servicesPreShutdownRoutineTimeout s) (lowBatteryShutdownDelay s)
       (phoneMode s) (tetheringMode s) (trace s).

Definition with_servicesPreShutdownRoutineTimeout (x : TimerHandle) (s : SystemManagerCommon) :=
  mkSM (state s) (updateReason s) (servicesList s) (readyForCloseRegister s)
       x (lowBatteryShutdownDelay s)
       (phoneMode s) (tetheringMode s) (trace s).

Definition with_lowBatteryShutdownDelay (x : TimerHandle) (s : SystemManagerCommon) :=
  mkSM (state s) (updateReason s) (servicesList s) (readyForCloseRegister s)
       (servicesPreShutdownRoutineTimeout s) x
       (phoneMode s) (tetheringMode s) (trace s).

Definition with_phoneMode (x : PhoneMode.t) (s : SystemManagerCommon) :=
  mkSM (state s) (updateReason s) (servicesList s) (readyForCloseRegister s)
       (servicesPreShutdownRoutineTimeout s) (lowBatteryShutdownDelay s)
       x (tetheringMode s) (trace s).

Definition with_tetheringMode (x : Tethering.t) (s : SystemManagerCommon) :=
  mkSM (state s) (updateReason s) (servicesList s) (readyForCloseRegister s)
       (servicesPreShutdownRoutineTimeout s) (lowBatteryShutdownDelay s)
       (phoneMode s) x (trace s).

(** Every outside-world action is recorded at the end of the trace. *)
Definition emit (e : Effect) (s : SystemManagerCommon) :=
  mkSM (state s) (updateReason s) (servicesList s) (readyForCloseRegister s)
       (servicesPreShutdownRoutineTimeout s) (lowBatteryShutdownDelay s)
       (phoneMode s) (tetheringMode s) (trace s ++ [e]).

(** [set]: the only writer of [state]. *)
Definition set (st : State.t) (s : SystemManagerCommon) : SystemManagerCommon :=
  let s := emit (Log (LogStateChange (state s) st)) s in
  with_state st s.

(** The names of a list of services, in list order. *)
Definition names (l : list Service) : list string := map GetName l.

(** [std::find(begin, end, serviceName) != end] over an array of names. *)
Fixpoint isOnWhitelist (list : list string) (serviceName : string) : bool :=
  match list with
  | [] => false
  | x :: rest => if String.eqb x serviceName then true else isOnWhitelist rest serviceName
  end.

(** The erase-remove idiom on the register: every element equal to
    [sender] is dropped, the others keep their order. *)
Fixpoint erase_remove (register : list string) (sender : string) : list string :=
  match register with
  | [] => []
  | x :: rest =>
      if String.eqb x sender then erase_remove rest sender
      else x :: erase_remove rest sender
  end.

(** [std::vector::empty]. *)
Definition empty {A : Type} (l : list A) : bool :=
  match l with [] => true | _ :: _ => false end.

(** ** Names of the well-known services *)

(** The [service::name::*] constants live in headers that are absent; the
    manager is therefore embedded over an arbitrary assignment of names. *)
Record ServiceNames := mkNames {
  service_desktop : string;
  evt_manager : string;
  gui : string;
  db : string;
  eink : string;
  appmgr : string;
  system_manager : string
}.

Section Manager.

(** [service::name]. *)
Variable service_name : ServiceNames.

(** The bus, as seen by [RequestServiceClose]: the pair made of the status
    of [sendUnicastSync] ([ret.first]) and of the [retCode] of the response
    when a [SystemMessageType::Exit] is sent to the named service. *)
Variable sendUnicastSync_Exit : string -> ReturnCodes.t * ReturnCodes.t.

(** *** [sys::state]: the whitelists *)

Definition update_whitelist : list string :=
  [service_desktop service_name; evt_manager service_name; gui service_name; db service_name; eink service_name; appmgr service_name].

Definition restore_whitelist : list string :=
  [service_desktop service_name; evt_manager service_name; gui service_name; eink service_name; appmgr service_name].

Definition regularClose_whitelist : list string :=
  [evt_manager service_name].

(** *** Timers *)

Definition lowBatteryShutdownDelay_stop (s : SystemManagerCommon) :=
  with_lowBatteryShutdownDelay (mkTimer false)
    (emit (TimerStop lowBatteryShutdownDelayTimer) s).

Definition lowBatteryShutdownDelay_start (s : SystemManagerCommon) :=
  with_lowBatteryShutdownDelay (mkTimer true)
    (emit (TimerStart lowBatteryShutdownDelayTimer) s).

Definition servicesPreShutdownRoutineTimeout_stop (s : SystemManagerCommon) :=
  with_servicesPreShutdownRoutineTimeout (mkTimer false)
    (emit (TimerStop servicesPreShutdownRoutine) s).

(** *** Closing one service *)

Definition RequestServiceClose (name : string) (s : SystemManagerCommon)
  : bool * SystemManagerCommon :=
  let s := emit (sendUnicastSyncExit name) s in
  let ret := sendUnicastSync_Exit name in
  if negb (ReturnCodes.is_success (fst ret)) then
    (false, emit (Log (LogServiceToCloseDidNotRespond name)) s)
  else if negb (ReturnCodes.is_success (snd ret)) then
    (false, emit (Log (LogNoticedFailureAtClose name)) s)
  else (true, s).

Definition kill (toKill : Service) (s : SystemManagerCommon) : SystemManagerCommon :=
  let s := emit (callDeinitHandler (GetName toKill)) s in
  let ret := DeinitHandler toKill in
  let s := if ReturnCodes.is_success ret then s
           else emit (Log (LogDeinitHandler ret)) s in
  emit (callCloseHandler (GetName toKill)) s.

(** *** [DestroyServices]

    The loop walks [servicesList] with an iterator and erases in place.
    The vector is [kept ++ rest] with the iterator standing at the head of
    [rest]: [++service] moves the head to [kept], [erase] drops it. *)
Fixpoint DestroyServices_loop (whitelist : list string)
         (kept rest : list Service) (s : SystemManagerCommon)
  : SystemManagerCommon :=
  match rest with
  | [] => s
  | service :: rest' =>
      if isOnWhitelist whitelist (GetName service) then
        let s := emit (Log (LogDelayClosing (GetName service))) s in
        DestroyServices_loop whitelist (kept ++ [service]) rest' s
      else
        let (closed, s) := RequestServiceClose (GetName service) s in
        let s := if closed then s
                 else kill service
                        (emit (Log (LogDidNotRespondToKill (GetName service))) s) in
        let s := with_servicesList (kept ++ rest') s in
        DestroyServices_loop whitelist kept rest' s
  end.

Definition DestroyServices (whitelist : list string) (s : SystemManagerCommon) :=
  DestroyServices_loop whitelist [] (servicesList s) s.

(** [std::find_if] by name followed by [erase] of the element found. *)
Fixpoint erase_first (name : string) (l : list Service) : option (list Service) :=
  match l with
  | [] => Datatypes.None
  | x :: rest =>
      if String.eqb (GetName x) name then Some rest
      else match erase_first name rest with
           | Some rest' => Some (x :: rest')
           | Datatypes.None => Datatypes.None
           end
  end.

Definition DestroySystemService (name : string) (s : SystemManagerCommon)
  : bool * SystemManagerCommon :=
  let (closed, s) := RequestServiceClose name s in
  if closed then
    match erase_first name (servicesList s) with
    | Datatypes.None => (false, emit (Log (LogNoSuchService name)) s)
    | Some l => (true, with_servicesList l s)
    end
  else (false, s).

(** *** The close handshake *)

Definition preCloseRoutine_body (closeReason : CloseReason.t)
           (s : SystemManagerCommon) (service : Service) : SystemManagerCommon :=
  let s := emit (sendUnicast (ServiceCloseReasonMessage closeReason) (GetName service)) s in
  with_readyForCloseRegister (readyForCloseRegister s ++ [GetName service]) s.

Definition preCloseRoutine (closeReason : CloseReason.t) (s : SystemManagerCommon) :=
  let s := fold_left (preCloseRoutine_body closeReason) (servicesList s) s in
  let s := emit (TimerCreate servicesPreShutdownRoutine) s in
  let s := emit (TimerStart servicesPreShutdownRoutine) s in
  with_servicesPreShutdownRoutineTimeout (mkTimer true) s.

Definition CloseSystemHandler (closeReason : CloseReason.t) (s : SystemManagerCommon) :=
  let s := emit (Log LogInvokingClosingProcedure) s in
  let s := lowBatteryShutdownDelay_stop s in
  let s := with_servicesList (rev (servicesList s)) s in
  preCloseRoutine closeReason s.

Definition CloseServices (s : SystemManagerCommon) : SystemManagerCommon :=
  let s := fold_left (fun s element => emit (Log (LogDidNotReportBeforeTimeout element)) s)
                     (readyForCloseRegister s) s in
  let s := with_readyForCloseRegister [] s in
  let s := DestroyServices regularClose_whitelist s in
  set State.Shutdown s.

Definition readyToCloseHandler (sender : string) (s : SystemManagerCommon) :=
  if negb (empty (readyForCloseRegister s))
     && isActive (servicesPreShutdownRoutineTimeout s) then
    let s := emit (Log (LogReadyToClose sender)) s in
    let s := with_readyForCloseRegister
               (erase_remove (readyForCloseRegister s) sender) s in
    if empty (readyForCloseRegister s) then
      let s := emit (Log LogAllServicesReady) s in
      let s := servicesPreShutdownRoutineTimeout_stop s in
      CloseServices s
    else s
  else s.

Definition RestoreSystemHandler (s : SystemManagerCommon) :=
  let s := emit (Log LogEnteringRestore) s in
  let s := with_servicesList (rev (servicesList s)) s in
  let s := DestroyServices restore_whitelist s in
  emit (Log LogEnteredRestore) s.

Definition UpdateSystemHandler (s : SystemManagerCommon) :=
  let s := emit (Log LogStartingUpdate) s in
  let s := with_servicesList (rev (servicesList s)) s in
  DestroyServices update_whitelist s.

Definition RebootHandler (state : State.t) (updateReason : option UpdateReason)
           (s : SystemManagerCommon) :=
  let s := CloseSystemHandler CloseReason.Reboot s in
  let s := set state s in
  match updateReason with
  | Some r => with_updateReason r s
  | Datatypes.None => s
  end.

(** *** Starting services *)

(** The bus, as seen by [RunService]: status of [sendUnicastSync] and
    [retCode] of the response to [SystemMessageType::Start]. *)
Variable sendUnicastSync_Start : string -> ReturnCodes.t * ReturnCodes.t.

Definition RunService (service : Service) (s : SystemManagerCommon)
  : bool * SystemManagerCommon :=
  let s := emit (StartService (GetName service)) s in
  let s := emit (sendUnicastSyncStart (GetName service)) s in
  let ret := sendUnicastSync_Start (GetName service) in
  (ReturnCodes.is_success (fst ret) && ReturnCodes.is_success (snd ret), s).

Definition RunSystemService (service : Service) (s : SystemManagerCommon)
  : bool * SystemManagerCommon :=
  let s := with_servicesList (servicesList s ++ [service]) s in
  RunService service s.

(** The [for_each] of [StartSystemServices] over the sorted creators;
    [None] stands for the [SystemInitialisationError] that is thrown. *)
Fixpoint StartSystemServices_loop (sortedServices : list Service)
         (s : SystemManagerCommon) : option SystemManagerCommon :=
  match sortedServices with
  | [] => Some s
  | service :: rest =>
      let (success, s) := RunSystemService service s in
      if success then StartSystemServices_loop rest s else Datatypes.None
  end.

(** *** Battery policy *)

Definition batteryCriticalLevelAction (charging : bool) (s : SystemManagerCommon) :=
  let s := emit (Log LogBatteryCritical) s in
  let s := emit (ChangeModulePowerState false) s in
  emit (sendUnicast (CriticalBatteryLevelNotification true charging)
                    (appmgr service_name)) s.

Definition batteryShutdownLevelAction (s : SystemManagerCommon) :=
  let s := emit (Log LogBatteryTooLow) s in
  CloseSystemHandler CloseReason.LowBattery s.

Definition batteryNormalLevelAction (s : SystemManagerCommon) :=
  let s := emit (Log LogBatteryNormal) s in
  let s := emit (ChangeModulePowerState true) s in
  emit (sendUnicast (CriticalBatteryLevelNotification false false)
                    (appmgr service_name)) s.

(** The handler [postStartRoutine] connects to [BatteryStateChangeMessage]. *)
Definition onBatteryStateChangeMessage (store : Battery.t) (s : SystemManagerCommon) :=
  match Battery.levelState store with
  | Battery.Normal => batteryNormalLevelAction s
  | Battery.Shutdown => batteryShutdownLevelAction s
  | Battery.CriticalCharging => batteryCriticalLevelAction true s
  | Battery.CriticalNotCharging => batteryCriticalLevelAction false s
  end.

(** *** Phone mode and tethering *)

(** Modelled from the spec: [phone_modes::Subject] (absent).
    [setTetheringMode] stores the mode and returns whether it changed (the
    source binds the result to [tetheringChanged]); [setPhoneMode] stores
    the mode; [isTetheringEnabled] tests the stored mode. *)
Definition setTetheringMode (mode : Tethering.t) (s : SystemManagerCommon)
  : bool * SystemManagerCommon :=
  (negb (Tethering.eqb (tetheringMode s) mode), with_tetheringMode mode s).

Definition isTetheringEnabled (s : SystemManagerCommon) : bool :=
  Tethering.eqb (tetheringMode s) Tethering.On.

Definition handlePhoneModeRequest (request : PhoneMode.t) (s : SystemManagerCommon) :=
  let s := emit (Log LogPhoneModeRequested) s in
  if isTetheringEnabled s then
    let s := emit (Log LogPhoneModeWhenTethering) s in
    emit (sendUnicast TetheringPhoneModeChangeProhibitedMessage (appmgr service_name)) s
  else with_phoneMode request s.

Definition handleTetheringStateRequest (store : Battery.t) (request : Tethering.t)
           (s : SystemManagerCommon) :=
  let s := emit (Log LogTetheringRequested) s in
  match Battery.levelState store with
  | Battery.Normal =>
      match request with
      | Tethering.On =>
          emit (sendUnicast TetheringQuestionRequest (appmgr service_name)) s
      | Tethering.Off =>
          let (tetheringChanged, s) := setTetheringMode Tethering.Off s in
          if negb tetheringChanged then
            emit (sendUnicast TetheringQuestionAbort (appmgr service_name)) s
          else
            let s := emit (Log LogDisablingTethering) s in
            emit (sendUnicast RequestPhoneModeForceUpdate (evt_manager service_name)) s
      end
  | _ => emit (Log LogTetheringRefused) s
  end.

Definition enableTethering (s : SystemManagerCommon) :=
  snd (setTetheringMode Tethering.On s).

(** *** Message dispatch: the handlers connected in [InitHandler] *)

Inductive MessageData :=
| SystemManagerCmd (type : Code.t) (closeReason : CloseReason.t)
                   (updateReason : UpdateReason)
| BatteryStateChangeMessage
| BatteryStatusChangeMessage
| KbdMessage
| BatteryBrownoutMessage
| CellularCheckIfStartAllowedMessage
| UserPowerDownRequest
| ReadyToCloseMessage
| PhoneModeRequest (mode : PhoneMode.t)
| TetheringStateRequest (tethering : Tethering.t)
| CheckIfStartAllowedMessage
| TetheringEnabledResponse
| TimerMessage (id : TimerId)
| UnconnectedMessage.

Record Message := mkMessage {
  sender : string;
  channel : BusChannel;
  data : MessageData
}.

Definition onSystemManagerCmd (msg : Message) (type : Code.t)
           (closeReason : CloseReason.t) (updateReason : UpdateReason)
           (s : SystemManagerCommon) :=
  match channel msg with
  | SystemManagerRequests =>
      match type with
      | Code.CloseSystem => CloseSystemHandler closeReason s
      | Code.Update => UpdateSystemHandler s
      | Code.Restore => RestoreSystemHandler s
      | Code.Reboot => RebootHandler State.Reboot Datatypes.None s
      | Code.RebootToUpdate => RebootHandler State.RebootToUpdate (Some updateReason) s
      | Code.None => s
      end
  | OtherChannel => s
  end.

Definition onBatteryStatusChangeMessage (store : Battery.t) (s : SystemManagerCommon) :=
  if State.eqb (state s) State.Shutdown && Battery.is_discharging store
  then set State.ShutdownReady s else s.

Definition onKbdMessage (s : SystemManagerCommon) :=
  if State.eqb (state s) State.Shutdown then set State.Reboot s else s.

Definition onBatteryBrownoutMessage (s : SystemManagerCommon) :=
  let s := emit (Log LogBrownout) s in
  CloseSystemHandler CloseReason.SystemBrownout s.

Definition onCellularCheckIfStartAllowedMessage (store : Battery.t)
           (s : SystemManagerCommon) :=
  match Battery.levelState store with
  | Battery.Normal => emit (ChangeModulePowerState true) s
  | Battery.CriticalCharging | Battery.CriticalNotCharging =>
      emit (ChangeModulePowerState false) s
  | Battery.Shutdown => s
  end.

Definition onCheckIfStartAllowedMessage (store : Battery.t) (s : SystemManagerCommon) :=
  let lowBattery s :=
    emit (sendUnicast (StartAllowedMessage StartupType.LowBattery)
                      (appmgr service_name)) s in
  match Battery.levelState store with
  | Battery.Normal =>
      emit (sendUnicast (StartAllowedMessage StartupType.Regular)
                        (appmgr service_name)) s
  | Battery.Shutdown =>
      let s := if negb (isActive (lowBatteryShutdownDelay s))
               then lowBatteryShutdownDelay_start s else s in
      lowBattery s
  | Battery.CriticalNotCharging => lowBattery s
  | Battery.CriticalCharging =>
      emit (sendUnicast (StartAllowedMessage StartupType.LowBatteryCharging)
                        (appmgr service_name)) s
  end.

(** A timer message runs the callback given at creation, provided the
    timer is still armed when the message is handled. *)
Definition onTimerMessage (id : TimerId) (s : SystemManagerCommon) :=
  match id with
  | servicesPreShutdownRoutine =>
      if isActive (servicesPreShutdownRoutineTimeout s) then CloseServices s else s
  | lowBatteryShutdownDelayTimer =>
      if isActive (lowBatteryShutdownDelay s)
      then CloseSystemHandler CloseReason.LowBattery s else s
  end.

(** [msg->Execute(this)]: the handler connected for the type of the
    message runs; [store] is what [Store::Battery::get()] returns at that
    moment. *)
Definition Execute (store : Battery.t) (msg : Message) (s : SystemManagerCommon) :=
  match data msg with
  | SystemManagerCmd type closeReason updateReason =>
      onSystemManagerCmd msg type closeReason updateReason s
  | BatteryStateChangeMessage => onBatteryStateChangeMessage store s
  | BatteryStatusChangeMessage => onBatteryStatusChangeMessage store s
  | KbdMessage => onKbdMessage s
  | BatteryBrownoutMessage => onBatteryBrownoutMessage s
  | CellularCheckIfStartAllowedMessage => onCellularCheckIfStartAllowedMessage store s
  | UserPowerDownRequest => CloseSystemHandler CloseReason.RegularPowerDown s
  | ReadyToCloseMessage => readyToCloseHandler (sender msg) s
  | PhoneModeRequest mode => handlePhoneModeRequest mode s
  | TetheringStateRequest tethering => handleTetheringStateRequest store tethering s
  | CheckIfStartAllowedMessage => onCheckIfStartAllowedMessage store s
  | TetheringEnabledResponse => enableTethering s
  | TimerMessage id => onTimerMessage id s
  | UnconnectedMessage => s
  end.

(** *** [Run]: the control loop and the hand-over to the power manager *)

(** One turn of a loop: what [Store::Battery::get()] returns during the
    turn and what [mailbox.pop()] returns if the turn calls it. *)
Record Tick := mkTick {
  store : Battery.t;
  pop : option Message
}.

(** [while (state == State::Running)]; [None] when the turns supplied run
    out before the loop is left. *)
Fixpoint loopRunning (ticks : list Tick) (s : SystemManagerCommon)
  : option (list Tick * SystemManagerCommon) :=
  match state s with
  | State.Running =>
      match ticks with
      | [] => Datatypes.None
      | t :: rest =>
          match pop t with
          | Some msg => loopRunning rest (Execute (store t) msg s)
          | Datatypes.None => loopRunning rest s
          end
      end
  | _ => Some (ticks, s)
  end.

(** [while (state == State::Shutdown)]. *)
Fixpoint loopShutdown (ticks : list Tick) (s : SystemManagerCommon)
  : option (list Tick * SystemManagerCommon) :=
  match state s with
  | State.Shutdown =>
      match ticks with
      | [] => Datatypes.None
      | t :: rest =>
          if Battery.is_discharging (store t) then
            loopShutdown rest (set State.ShutdownReady s)
          else
            match pop t with
            | Datatypes.None => loopShutdown rest s
            | Some msg =>
                if negb (String.eqb (sender msg) (evt_manager service_name)) then
                  loopShutdown rest (emit (Log (LogIgnoredOnShutdown (sender msg))) s)
                else loopShutdown rest (Execute (store t) msg s)
            end
      end
  | _ => Some (ticks, s)
  end.

(** What [Run] ends with: a call into the power manager, or [exit(1)]. *)
Inductive Termination :=
| PowerManagerReboot
| PowerManagerPowerOff
| PowerManagerRebootToUpdate (updateReason : UpdateReason)
| exit (status : nat).

(** The [switch (state)] that closes [Run]. *)
Definition powerOffSystem (s : SystemManagerCommon)
  : Termination * SystemManagerCommon :=
  match state s with
  | State.Reboot => (PowerManagerReboot, s)
  | State.ShutdownReady => (PowerManagerPowerOff, s)
  | State.RebootToUpdate => (PowerManagerRebootToUpdate (updateReason s), s)
  | st => (exit 1, emit (Log (LogFatalState st)) s)
  end.

(** [Run] once [initialize] has returned, over the turns the environment
    supplies. *)
Definition Run (ticks : list Tick) (s : SystemManagerCommon)
  : option (Termination * SystemManagerCommon) :=
  match loopRunning ticks s with
  | Datatypes.None => Datatypes.None
  | Some (ticks, s) =>
      match loopShutdown ticks s with
      | Datatypes.None => Datatypes.None
      | Some (_, s) =>
          let (_, s) := DestroySystemService (evt_manager service_name) s in
          let s := emit CloseService s in
          let s := emit EndScheduler s in
          Some (powerOffSystem s)
      end
  end.

End Manager.

(** ** Reading a trace *)

(** Appending several effects at once; [emit e] is [emits [e]]. *)
Definition emits (es : list Effect) (s : SystemManagerCommon) :=
  mkSM (state s) (updateReason s) (servicesList s) (readyForCloseRegister s)
       (servicesPreShutdownRoutineTimeout s) (lowBatteryShutdownDelay s)
       (phoneMode s) (tetheringMode s) (trace s ++ es).

(** The close-reason notification sent to one service. *)
Definition closeNotification (closeReason : CloseReason.t) (target : string) : Effect :=
  sendUnicast (ServiceCloseReasonMessage closeReason) target.

(** The targets of the close-reason notifications of a trace, in order. *)
Fixpoint closeBroadcastTargets (tr : list Effect) : list string :=
  match tr with
  | [] => []
  | sendUnicast (ServiceCloseReasonMessage _) target :: rest =>
      target :: closeBroadcastTargets rest
  | _ :: rest => closeBroadcastTargets rest
  end.

(** How many times the closing procedure was entered: [CloseSystemHandler]
    logs its first line once per invocation. *)
Fixpoint closeInvocations (tr : list Effect) : nat :=
  match tr with
  | [] => 0
  | Log LogInvokingClosingProcedure :: rest => S (closeInvocations rest)
  | _ :: rest => closeInvocations rest
  end.

(** Anything put on the bus with [sendUnicast]. *)
Fixpoint notifications (tr : list Effect) : list (OutMessage * string) :=
  match tr with
  | [] => []
  | sendUnicast msg target :: rest => (msg, target) :: notifications rest
  | _ :: rest => notifications rest
  end.

(** The targets of the synchronous close requests of a trace, in order. *)
Fixpoint closeRequests (tr : list Effect) : list string :=
  match tr with
  | [] => []
  | sendUnicastSyncExit target :: rest => target :: closeRequests rest
  | _ :: rest => closeRequests rest
  end.

(** ** The destroy pass, service by service

    What the spec says happens to one registered service during the destroy
    pass: a whitelisted service is only logged; any other service gets one
    graceful close request and, when that request does not return success,
    the deinitialize-then-close sequence. *)
Definition closeSucceeds (reply : ReturnCodes.t * ReturnCodes.t) : bool :=
  ReturnCodes.is_success (fst reply) && ReturnCodes.is_success (snd reply).

Definition closeFailureLog (reply : ReturnCodes.t * ReturnCodes.t) (name : string)
  : LogLine :=
  if ReturnCodes.is_success (fst reply) then LogNoticedFailureAtClose name
  else LogServiceToCloseDidNotRespond name.

Definition killEffects (service : Service) : list Effect :=
  [callDeinitHandler (GetName service)]
    ++ (if ReturnCodes.is_success (DeinitHandler service) then []
        else [Log (LogDeinitHandler (DeinitHandler service))])
    ++ [callCloseHandler (GetName service)].

Definition destroyEffects (reply : string -> ReturnCodes.t * ReturnCodes.t)
           (whitelist : list string) (service : Service) : list Effect :=
  if isOnWhitelist whitelist (GetName service) then
    [Log (LogDelayClosing (GetName service))]
  else if closeSucceeds (reply (GetName service)) then
    [sendUnicastSyncExit (GetName service)]
  else
    [sendUnicastSyncExit (GetName service);
     Log (closeFailureLog (reply (GetName service)) (GetName service));
     Log (LogDidNotRespondToKill (GetName service))]
      ++ killEffects service.

(** The services a whitelist keeps. *)
Definition survivors (whitelist : list string) (l : list Service) : list Service :=
  filter (fun service => isOnWhitelist whitelist (GetName service)) l.

(** Messages handled one after the other, each with the battery store of
    its moment. *)
Definition ExecuteAll (service_name : ServiceNames)
           (reply : string -> ReturnCodes.t * ReturnCodes.t)
           (msgs : list (Battery.t * Message)) (s : SystemManagerCommon) :=
  fold_left (fun s m => Execute service_name reply (fst m) (snd m) s) msgs s.

(** Acknowledgments handled one after the other. *)
Definition acknowledgeAll (service_name : ServiceNames)
           (reply : string -> ReturnCodes.t * ReturnCodes.t)
           (senders : list string) (s : SystemManagerCommon) :=
  fold_left (fun s sender => readyToCloseHandler service_name reply sender s) senders s.

(** ** Concrete data for the examples *)

Definition sample_names : ServiceNames :=
  mkNames "ServiceDesktop" "EventManager" "ServiceGUI" "ServiceDB"
          "ServiceEink" "ApplicationManager" "SysMgrService".

Definition replySuccess (_ : string) : ReturnCodes.t * ReturnCodes.t :=
  (ReturnCodes.Success, ReturnCodes.Success).

Definition replyTimeout (_ : string) : ReturnCodes.t * ReturnCodes.t :=
  (ReturnCodes.Timeout, ReturnCodes.Failure).

Definition svcA := mkService "svcA" ReturnCodes.Success.
Definition svcB := mkService "svcB" ReturnCodes.Success.
Definition svcC := mkService "svcC" ReturnCodes.Failure.
Definition svcEvtMgr := mkService "EventManager" ReturnCodes.Success.

(** A manager that has just been constructed: no service registered. *)
Definition fresh : SystemManagerCommon :=
  mkSM State.Running 0 [] [] (mkTimer false) (mkTimer false)
       PhoneMode.Connected Tethering.Off [].

(** A running manager with the given registry. *)
Definition running (l : list Service) : SystemManagerCommon :=
  with_servicesList l fresh.

Definition normalBattery := Battery.mk Battery.Charging Battery.Normal.
Definition shutdownLevelBattery := Battery.mk Battery.Charging Battery.Shutdown.
Definition criticalBattery := Battery.mk Battery.Charging Battery.CriticalNotCharging.
Definition dischargingBattery := Battery.mk Battery.Discharging Battery.Normal.

Definition fromEvtMgr (d : MessageData) : Message :=
  mkMessage "EventManager" SystemManagerRequests d.

Definition fromService (sender : string) (d : MessageData) : Message :=
  mkMessage sender SystemManagerRequests d.

(** The manager right after the close broadcast of a regular power-down:
    every service notified, nobody has acknowledged yet. *)
Definition broadcastDone (l : list Service) : SystemManagerCommon :=
  CloseSystemHandler CloseReason.RegularPowerDown (running l).

Definition closeCmd : Message :=
  fromService "ApplicationManager"
    (SystemManagerCmd Code.CloseSystem CloseReason.RegularPowerDown 0).

Definition rebootCmd : Message :=
  fromService "ServiceDesktop" (SystemManagerCmd Code.Reboot CloseReason.Reboot 0).

Definition watchdogFired : Message :=
  fromService "SysMgrService" (TimerMessage servicesPreShutdownRoutine).

Definition lowBatteryDelayFired : Message :=
  fromService "SysMgrService" (TimerMessage lowBatteryShutdownDelayTimer).

Definition readyToClose (sender : string) : Message :=
  fromService sender ReadyToCloseMessage.

(** ** Readings of the spec used when the code departs from it *)

(** A service is left out of a destroy pass when the pass neither sends it
    the close request nor runs its deinitialize-then-close sequence. *)
Definition excludedFromDestroyPass (name : string) (pass : list Effect) : Prop :=
  ~ In (sendUnicastSyncExit name) pass /\
  ~ In (callDeinitHandler name) pass /\
  ~ In (callCloseHandler name) pass.

(** The close round started from [before] is complete in [after]: nothing
    is pending any more and the destroy pass of the regular close has left
    only the whitelisted services of the reversed registry. *)
Definition closeRoundCompleted (service_name : ServiceNames)
           (before after : SystemManagerCommon) : Prop :=
  readyForCloseRegister after = [] /\
  servicesList after =
    survivors (regularClose_whitelist service_name) (rev (servicesList before)).

(** A rejected request is answered when the handler puts at least one more
    message on the bus than was there before. *)
Definition rejectionNotified (before after : SystemManagerCommon) : Prop :=
  notifications (trace after) <> notifications (trace before).

(** ** Further functions of the file *)

(** [RunService] reports success when both the status of the synchronous
    send and the return code of the response are [Success]. *)
Definition startAcknowledged (reply : ReturnCodes.t * ReturnCodes.t) : bool :=
  ReturnCodes.is_success (fst reply) && ReturnCodes.is_success (snd reply).

(** What starting one service does to the outside world. *)
Definition startEffects (service : Service) : list Effect :=
  [StartService (GetName service); sendUnicastSyncStart (GetName service)].

(** The startup type the start-allowed query is answered with. *)
Definition startupTypeFor (level : Battery.LevelState) : StartupType.t :=
  match level with
  | Battery.Normal => StartupType.Regular
  | Battery.Shutdown | Battery.CriticalNotCharging => StartupType.LowBattery
  | Battery.CriticalCharging => StartupType.LowBatteryCharging
  end.

(** Whether the stored battery level is [Shutdown]. *)
Definition atShutdownLevel (store : Battery.t) : bool :=
  match Battery.levelState store with
  | Battery.Shutdown => true
  | _ => false
  end.

(** How many times the low-battery shutdown delay was started. *)
Fixpoint lowBatteryTimerStarts (tr : list Effect) : nat :=
  match tr with
  | [] => 0
  | TimerStart lowBatteryShutdownDelayTimer :: rest => S (lowBatteryTimerStarts rest)
  | _ :: rest => lowBatteryTimerStarts rest
  end.

(** The calls into services that make up a kill. *)
Fixpoint killCalls (tr : list Effect) : list string :=
  match tr with
  | [] => []
  | callDeinitHandler name :: rest => name :: killCalls rest
  | callCloseHandler name :: rest => name :: killCalls rest
  | _ :: rest => killCalls rest
  end.

(** A turn of the shutdown loop that cannot move the manager: the battery
    is not discharging and the mailbox gives nothing, or a message whose
    sender is not the event manager. *)
Definition ignoredOnShutdown (service_name : ServiceNames) (t : Tick) : bool :=
  negb (Battery.is_discharging (store t))
  && match pop t with
     | Datatypes.None => true
     | Some msg => negb (String.eqb (sender msg) (evt_manager service_name))
     end.

(** What such a turn leaves in the trace. *)
Definition ignoredLog (t : Tick) : list Effect :=
  match pop t with
  | Datatypes.None => []
  | Some msg => [Log (LogIgnoredOnShutdown (sender msg))]
  end.

(** *** [translateSliderState] *)

(** Modelled from the spec: [bsp::KeyCodes] (header absent).  The source
    names the three positions of the slider; [Other] stands for every other
    key code. *)
Module KeyCodes.
Inductive t := SSwitchUp | SSwitchMid | SSwitchDown | Other (code : nat).

Definition eqb (a b : t) : bool :=
  match a, b with
  | SSwitchUp, SSwitchUp | SSwitchMid, SSwitchMid | SSwitchDown, SSwitchDown => true
  | Other x, Other y => Nat.eqb x y
  | _, _ => false
  end.
End KeyCodes.

Definition SliderStateToPhoneModeMapping : list (KeyCodes.t * PhoneMode.t) :=
  [(KeyCodes.SSwitchUp, PhoneMode.Connected);
   (KeyCodes.SSwitchMid, PhoneMode.DoNotDisturb);
   (KeyCodes.SSwitchDown, PhoneMode.Offline)].

(** [std::map::at]; [None] stands for the exception thrown on a missing key. *)
Fixpoint map_at (m : list (KeyCodes.t * PhoneMode.t)) (code : KeyCodes.t)
  : option PhoneMode.t :=
  match m with
  | [] => Datatypes.None
  | (k, v) :: rest => if KeyCodes.eqb k code then Some v else map_at rest code
  end.

(** [None] stands for the [std::invalid_argument] that is thrown. *)
Definition translateSliderState (keyCode : KeyCodes.t) : option PhoneMode.t :=
  let code := keyCode in
  if negb (KeyCodes.eqb code KeyCodes.SSwitchUp)
     && negb (KeyCodes.eqb code KeyCodes.SSwitchMid)
     && negb (KeyCodes.eqb code KeyCodes.SSwitchDown)
  then Datatypes.None
  else map_at SliderStateToPhoneModeMapping code.

(** *** [CpuStatisticsTimerHandler] *)

(** The handler touches [cpuStatisticsTimerInit] and three collaborators
    only; they are kept apart from the manager record.  [load] is what
    [GetPercentageCpuLoad] returns after the update. *)
Inductive CpuStatisticsEffect :=
| cpuStatisticsTimer_restart
| cpuStatistics_Update
| powerManager_UpdateCpuFrequency (load : nat).

Record CpuStatisticsState := mkCpu {
  cpuStatisticsTimerInit : bool;
  cpuTrace : list CpuStatisticsEffect
}.

Definition CpuStatisticsTimerHandler (load : nat) (c : CpuStatisticsState)
  : CpuStatisticsState :=
  let c := if negb (cpuStatisticsTimerInit c)
           then mkCpu true (cpuTrace c ++ [cpuStatisticsTimer_restart])
           else c in
  let c := mkCpu (cpuStatisticsTimerInit c) (cpuTrace c ++ [cpuStatistics_Update]) in
  mkCpu (cpuStatisticsTimerInit c)
        (cpuTrace c ++ [powerManager_UpdateCpuFrequency load]).

Fixpoint timerRestarts (tr : list CpuStatisticsEffect) : nat :=
  match tr with
  | [] => 0
  | cpuStatisticsTimer_restart :: rest => S (timerRestarts rest)
  | _ :: rest => timerRestarts rest
  end.

Fixpoint frequencyUpdates (tr : list CpuStatisticsEffect) : list nat :=
  match tr with
  | [] => []
  | powerManager_UpdateCpuFrequency load :: rest => load :: frequencyUpdates rest
  | _ :: rest => frequencyUpdates rest
  end.

(** * Properties *)

Section Proofs.

Variable service_name : ServiceNames.
Variable reply : string -> ReturnCodes.t * ReturnCodes.t.

(** Reduces the record updates of the goal to applications of [mkSM];
    call-by-value, so that an updated record is built once. *)
Ltac unfold_updates :=
  cbv beta iota zeta delta
      [set emit emits with_state with_updateReason with_servicesList
       with_readyForCloseRegister with_servicesPreShutdownRoutineTimeout
       with_lowBatteryShutdownDelay with_phoneMode with_tetheringMode
       lowBatteryShutdownDelay_stop lowBatteryShutdownDelay_start
       servicesPreShutdownRoutineTimeout_stop
       state updateReason servicesList readyForCloseRegister
       servicesPreShutdownRoutineTimeout lowBatteryShutdownDelay
       phoneMode tetheringMode trace].

(** ** The broadcast *)

Lemma preCloseRoutine_loop_eq (closeReason : CloseReason.t) (l : list Service) :
  forall s,
    fold_left (preCloseRoutine_body closeReason) l s =
    mkSM (state s) (updateReason s) (servicesList s)
         (readyForCloseRegister s ++ names l)
         (servicesPreShutdownRoutineTimeout s) (lowBatteryShutdownDelay s)
         (phoneMode s) (tetheringMode s)
         (trace s ++ map (closeNotification closeReason) (names l)).
Proof.
  induction l as [|x l IH]; intros [st ur sl reg wd lb pm tm tr].
  - simpl. now rewrite !app_nil_r.
  - cbn [fold_left]. rewrite IH. unfold preCloseRoutine_body. unfold_updates.
    cbn [names map]. now rewrite <- !app_assoc.
Qed.

Lemma preCloseRoutine_eq (closeReason : CloseReason.t) (s : SystemManagerCommon) :
  preCloseRoutine closeReason s =
  mkSM (state s) (updateReason s) (servicesList s)
       (readyForCloseRegister s ++ names (servicesList s))
       (mkTimer true) (lowBatteryShutdownDelay s) (phoneMode s) (tetheringMode s)
       (trace s
        ++ map (closeNotification closeReason) (names (servicesList s))
        ++ [TimerCreate servicesPreShutdownRoutine;
            TimerStart servicesPreShutdownRoutine]).
Proof.
  unfold preCloseRoutine. rewrite preCloseRoutine_loop_eq.
  destruct s as [st ur sl reg wd lb pm tm tr]. unfold_updates.
  now rewrite <- !app_assoc.
Qed.

Lemma CloseSystemHandler_eq (closeReason : CloseReason.t) (s : SystemManagerCommon) :
  CloseSystemHandler closeReason s =
  mkSM (state s) (updateReason s) (rev (servicesList s))
       (readyForCloseRegister s ++ names (rev (servicesList s)))
       (mkTimer true) (mkTimer false) (phoneMode s) (tetheringMode s)
       (trace s
        ++ [Log LogInvokingClosingProcedure; TimerStop lowBatteryShutdownDelayTimer]
        ++ map (closeNotification closeReason) (names (rev (servicesList s)))
        ++ [TimerCreate servicesPreShutdownRoutine;
            TimerStart servicesPreShutdownRoutine]).
Proof.
  unfold CloseSystemHandler. cbv zeta. rewrite preCloseRoutine_eq.
  destruct s as [st ur sl reg wd lb pm tm tr]. unfold_updates.
  now rewrite <- !app_assoc.
Qed.

Lemma StartSystemServices_loop_registry
      (start : string -> ReturnCodes.t * ReturnCodes.t) (sortedServices : list Service) :
  forall s0 s,
    StartSystemServices_loop start sortedServices s0 = Some s ->
    servicesList s = servicesList s0 ++ sortedServices.
Proof.
  induction sortedServices as [|x l IH]; intros s0 s; cbn [StartSystemServices_loop].
  - intros [= <-]. now rewrite app_nil_r.
  - unfold RunSystemService, RunService. cbv zeta.
    destruct (ReturnCodes.is_success (fst (start (GetName x)))
              && ReturnCodes.is_success (snd (start (GetName x)))); [|discriminate].
    intros H. apply IH in H. rewrite H. destruct s0. unfold_updates.
    now rewrite <- app_assoc.
Qed.

Lemma closeBroadcastTargets_app (a b : list Effect) :
  closeBroadcastTargets (a ++ b) = closeBroadcastTargets a ++ closeBroadcastTargets b.
Proof.
  induction a as [|e a IH]; simpl; [reflexivity|].
  destruct e as [line|msg target| | | | | | | | | | |];
    try (simpl; now rewrite IH).
  destruct msg; simpl; now rewrite IH.
Qed.

Lemma closeBroadcastTargets_notifications (closeReason : CloseReason.t) (l : list string) :
  closeBroadcastTargets (map (closeNotification closeReason) l) = l.
Proof. induction l; simpl; congruence. Qed.

(** C1.  Whatever services were started, in whatever order, initiating a
    close with any reason first reverses the registry and then sends the
    close-reason notification to every registered service in that reversed
    order (last started, first notified), appending each notified name to the
    pending-acknowledgment register.  Here [sortedServices] is the start
    order, [s0] the manager before the services are started and [s] the
    manager once they all run; the stop of the low-battery timer comes first
    in the trace and the start of the watchdog last. *)
Theorem CloseSystemHandler_notifies_in_reverse_start_order :
  forall (start : string -> ReturnCodes.t * ReturnCodes.t)
         (sortedServices : list Service) (closeReason : CloseReason.t)
         (s0 s : SystemManagerCommon),
    StartSystemServices_loop start sortedServices s0 = Some s ->
    let notified := names (rev (servicesList s0 ++ sortedServices)) in
    let s' := CloseSystemHandler closeReason s in
    servicesList s = servicesList s0 ++ sortedServices /\
    servicesList s' = rev (servicesList s0 ++ sortedServices) /\
    trace s' = trace s
               ++ [Log LogInvokingClosingProcedure;
                   TimerStop lowBatteryShutdownDelayTimer]
               ++ map (closeNotification closeReason) notified
               ++ [TimerCreate servicesPreShutdownRoutine;
                   TimerStart servicesPreShutdownRoutine] /\
    closeBroadcastTargets (trace s') = closeBroadcastTargets (trace s) ++ notified /\
    readyForCloseRegister s' = readyForCloseRegister s ++ notified.
Proof.
  intros start sorted closeReason s0 s Hstart notified s'.
  assert (Hreg : servicesList s = servicesList s0 ++ sorted)
    by exact (StartSystemServices_loop_registry start sorted s0 s Hstart).
  subst s' notified. rewrite CloseSystemHandler_eq, <- Hreg.
  cbn [servicesList trace readyForCloseRegister].
  repeat split; try reflexivity.
  rewrite closeBroadcastTargets_app. f_equal.
  cbn [app closeBroadcastTargets].
  rewrite closeBroadcastTargets_app, closeBroadcastTargets_notifications.
  cbn [closeBroadcastTargets]. now rewrite app_nil_r.
Qed.

(** ** The destroy pass *)

Lemma emit_emits (e : Effect) (s : SystemManagerCommon) : emit e s = emits [e] s.
Proof. reflexivity. Qed.

Lemma emits_emits (a b : list Effect) (s : SystemManagerCommon) :
  emits b (emits a s) = emits (a ++ b) s.
Proof. destruct s. unfold_updates. now rewrite <- app_assoc. Qed.

Lemma RequestServiceClose_eq (name : string) (s : SystemManagerCommon) :
  RequestServiceClose reply name s =
  (closeSucceeds (reply name),
   emits (sendUnicastSyncExit name
            :: (if closeSucceeds (reply name) then []
                else [Log (closeFailureLog (reply name) name)])) s).
Proof.
  unfold RequestServiceClose, closeSucceeds, closeFailureLog. cbv zeta.
  destruct (reply name) as [[] []]; cbn [fst snd ReturnCodes.is_success negb andb];
    rewrite ?emit_emits, ?emits_emits; reflexivity.
Qed.

Lemma kill_eq (toKill : Service) (s : SystemManagerCommon) :
  kill toKill s = emits (killEffects toKill) s.
Proof.
  unfold kill, killEffects. cbv zeta.
  destruct (ReturnCodes.is_success (DeinitHandler toKill));
    rewrite ?emit_emits, ?emits_emits; reflexivity.
Qed.

Lemma DestroyServices_loop_eq (whitelist : list string) (rest : list Service) :
  forall kept s,
    servicesList s = kept ++ rest ->
    DestroyServices_loop reply whitelist kept rest s =
    mkSM (state s) (updateReason s) (kept ++ survivors whitelist rest)
         (readyForCloseRegister s)
         (servicesPreShutdownRoutineTimeout s) (lowBatteryShutdownDelay s)
         (phoneMode s) (tetheringMode s)
         (trace s ++ flat_map (destroyEffects reply whitelist) rest).
Proof.
  induction rest as [|service rest IH]; intros kept s Hs.
  - destruct s as [st ur sl reg wd lb pm tm tr]. cbn in Hs |- *. subst sl.
    now rewrite !app_nil_r.
  - cbn [DestroyServices_loop survivors filter flat_map].
    unfold destroyEffects at 1.
    destruct (isOnWhitelist whitelist (GetName service)) eqn:Hw.
    + cbv zeta. rewrite IH.
      * destruct s as [st ur sl reg wd lb pm tm tr]. unfold_updates.
        fold (survivors whitelist rest).
        now rewrite <- !app_assoc.
      * destruct s as [st ur sl reg wd lb pm tm tr]. cbn in Hs |- *. subst sl.
        now rewrite <- app_assoc.
    + rewrite RequestServiceClose_eq.
      destruct (closeSucceeds (reply (GetName service))) eqn:Hc; cbv zeta.
      * rewrite IH.
        -- destruct s as [st ur sl reg wd lb pm tm tr]. unfold_updates.
           fold (survivors whitelist rest). now rewrite <- !app_assoc.
        -- destruct s; reflexivity.
      * rewrite emit_emits, kill_eq, !emits_emits. rewrite IH.
        -- destruct s as [st ur sl reg wd lb pm tm tr]. unfold_updates.
           fold (survivors whitelist rest). now rewrite <- !app_assoc.
        -- destruct s; reflexivity.
Qed.

Lemma DestroyServices_eq (whitelist : list string) (s : SystemManagerCommon) :
  DestroyServices reply whitelist s =
  with_servicesList (survivors whitelist (servicesList s))
    (emits (flat_map (destroyEffects reply whitelist) (servicesList s)) s).
Proof.
  unfold DestroyServices. rewrite (DestroyServices_loop_eq whitelist _ [] s eq_refl).
  destruct s; reflexivity.
Qed.

Lemma closeRequests_app (a b : list Effect) :
  closeRequests (a ++ b) = closeRequests a ++ closeRequests b.
Proof.
  induction a as [|e a IH]; simpl; [reflexivity|].
  destruct e; simpl; now rewrite IH.
Qed.

Lemma closeRequests_destroyEffects (whitelist : list string) (service : Service) :
  closeRequests (destroyEffects reply whitelist service) =
  if isOnWhitelist whitelist (GetName service) then [] else [GetName service].
Proof.
  unfold destroyEffects, killEffects.
  destruct (isOnWhitelist whitelist (GetName service)); [reflexivity|].
  destruct (closeSucceeds (reply (GetName service))); [reflexivity|].
  destruct (ReturnCodes.is_success (DeinitHandler service)); reflexivity.
Qed.

Lemma closeRequests_pass (whitelist : list string) (l : list Service) :
  closeRequests (flat_map (destroyEffects reply whitelist) l) =
  names (filter (fun service => negb (isOnWhitelist whitelist (GetName service))) l).
Proof.
  induction l as [|x l IH]; [reflexivity|].
  cbn [flat_map filter]. rewrite closeRequests_app, closeRequests_destroyEffects, IH.
  destruct (isOnWhitelist whitelist (GetName x)); reflexivity.
Qed.

Lemma UpdateSystemHandler_eq (s : SystemManagerCommon) :
  UpdateSystemHandler service_name reply s =
  DestroyServices reply (update_whitelist service_name)
    (with_servicesList (rev (servicesList s)) (emit (Log LogStartingUpdate) s)).
Proof. destruct s; reflexivity. Qed.

Lemma RestoreSystemHandler_eq (s : SystemManagerCommon) :
  RestoreSystemHandler service_name reply s =
  emit (Log LogEnteredRestore)
    (DestroyServices reply (restore_whitelist service_name)
       (with_servicesList (rev (servicesList s)) (emit (Log LogEnteringRestore) s))).
Proof. destruct s; reflexivity. Qed.

Lemma log_register_eq (register : list string) :
  forall s,
    fold_left (fun s element => emit (Log (LogDidNotReportBeforeTimeout element)) s)
              register s =
    emits (map (fun element => Log (LogDidNotReportBeforeTimeout element)) register) s.
Proof.
  induction register as [|x l IH]; intros s.
  - destruct s. unfold_updates. cbn. now rewrite app_nil_r.
  - cbn [fold_left map]. rewrite IH, emit_emits, emits_emits. reflexivity.
Qed.

Lemma CloseServices_eq (s : SystemManagerCommon) :
  CloseServices service_name reply s =
  mkSM State.Shutdown (updateReason s)
       (survivors (regularClose_whitelist service_name) (servicesList s)) []
       (servicesPreShutdownRoutineTimeout s) (lowBatteryShutdownDelay s)
       (phoneMode s) (tetheringMode s)
       (trace s
        ++ map (fun element => Log (LogDidNotReportBeforeTimeout element))
               (readyForCloseRegister s)
        ++ flat_map (destroyEffects reply (regularClose_whitelist service_name))
                    (servicesList s)
        ++ [Log (LogStateChange (state s) State.Shutdown)]).
Proof.
  unfold CloseServices. cbv zeta. rewrite log_register_eq, DestroyServices_eq.
  destruct s as [st ur sl reg wd lb pm tm tr]. unfold_updates.
  now rewrite <- !app_assoc.
Qed.

(** C2.  For each round type (update, restore, regular close) the registry
    after the destroy pass holds exactly the services of the (reversed)
    registry whose name is on that round's whitelist.  For any whitelist, a
    service stays registered if and only if it was registered and its name is
    on the whitelist; the pass adds to the trace, service by service, what
    [destroyEffects] lists: one synchronous close request for each service
    off the whitelist and no second one, followed, when the request does not
    return success, by the deinitialize-then-close sequence; such a service
    is removed all the same. *)
Theorem destroy_pass_keeps_exactly_the_whitelist :
  forall s : SystemManagerCommon,
    (UpdateSystemHandler service_name reply s =
       DestroyServices reply (update_whitelist service_name)
         (with_servicesList (rev (servicesList s)) (emit (Log LogStartingUpdate) s)) /\
     servicesList (UpdateSystemHandler service_name reply s) =
       survivors (update_whitelist service_name) (rev (servicesList s))) /\
    (RestoreSystemHandler service_name reply s =
       emit (Log LogEnteredRestore)
         (DestroyServices reply (restore_whitelist service_name)
            (with_servicesList (rev (servicesList s)) (emit (Log LogEnteringRestore) s))) /\
     servicesList (RestoreSystemHandler service_name reply s) =
       survivors (restore_whitelist service_name) (rev (servicesList s))) /\
    (servicesList (CloseServices service_name reply s) =
       survivors (regularClose_whitelist service_name) (servicesList s) /\
     trace (CloseServices service_name reply s) =
       trace s
       ++ map (fun element => Log (LogDidNotReportBeforeTimeout element))
              (readyForCloseRegister s)
       ++ flat_map (destroyEffects reply (regularClose_whitelist service_name))
                   (servicesList s)
       ++ [Log (LogStateChange (state s) State.Shutdown)]) /\
    forall whitelist : list string,
      let s' := DestroyServices reply whitelist s in
      let pass := flat_map (destroyEffects reply whitelist) (servicesList s) in
      servicesList s' = survivors whitelist (servicesList s) /\
      (forall service,
          In service (servicesList s') <->
          In service (servicesList s) /\ isOnWhitelist whitelist (GetName service) = true) /\
      trace s' = trace s ++ pass /\
      closeRequests pass =
        names (filter (fun service => negb (isOnWhitelist whitelist (GetName service)))
                      (servicesList s)) /\
      (forall service,
          In service (servicesList s) ->
          isOnWhitelist whitelist (GetName service) = false ->
          ~ In service (servicesList s') /\
          In (sendUnicastSyncExit (GetName service)) pass /\
          (closeSucceeds (reply (GetName service)) = false ->
           exists before after,
             pass = before
                    ++ [sendUnicastSyncExit (GetName service);
                        Log (closeFailureLog (reply (GetName service)) (GetName service));
                        Log (LogDidNotRespondToKill (GetName service))]
                    ++ killEffects service ++ after)).
Proof.
  intros s. split; [|split; [|split]].
  - split; [apply UpdateSystemHandler_eq|].
    rewrite UpdateSystemHandler_eq, DestroyServices_eq. destruct s; reflexivity.
  - split; [apply RestoreSystemHandler_eq|].
    rewrite RestoreSystemHandler_eq, DestroyServices_eq. destruct s; reflexivity.
  - rewrite CloseServices_eq. split; reflexivity.
  - intros whitelist s' pass. subst s' pass. rewrite DestroyServices_eq.
    assert (Hsurv : forall service,
               In service (survivors whitelist (servicesList s)) <->
               In service (servicesList s) /\
               isOnWhitelist whitelist (GetName service) = true)
      by (intros service; unfold survivors; apply filter_In).
    destruct s as [st ur sl reg wd lb pm tm tr].
    cbn [with_servicesList emits servicesList trace] in *.
    split; [reflexivity|]. split; [exact Hsurv|]. split; [reflexivity|].
    split; [apply closeRequests_pass|].
    intros service Hin Hw. split; [|split].
    + rewrite Hsurv, Hw. intros [_ H]; discriminate.
    + apply in_flat_map. exists service. split; [exact Hin|].
      unfold destroyEffects. rewrite Hw.
      destruct (closeSucceeds (reply (GetName service))); left; reflexivity.
    + intros Hc. apply in_split in Hin. destruct Hin as (l1 & l2 & ->).
      exists (flat_map (destroyEffects reply whitelist) l1),
             (flat_map (destroyEffects reply whitelist) l2).
      rewrite flat_map_app. cbn [flat_map]. unfold destroyEffects at 2.
      rewrite Hw, Hc. now rewrite <- !app_assoc.
Qed.

(** ** Watchdog expiry *)

(** C3 (what the code does).  When the watchdog fires while it is armed,
    every name still in the register is logged as not having reported, the
    register is cleared,
    and the destroy pass of the regular close then runs over the whole
    registry: every registered service off the regular-close whitelist gets
    the synchronous close request and is removed, whether or not its name was
    still pending; the deinitialize-then-close sequence is run only for a
    service whose close request does not return success.  The state becomes
    [Shutdown]. *)
Theorem watchdog_expiry_logs_clears_and_destroys :
  forall s : SystemManagerCommon,
    isActive (servicesPreShutdownRoutineTimeout s) = true ->
    let whitelist := regularClose_whitelist service_name in
    let s' := onTimerMessage service_name reply servicesPreShutdownRoutine s in
    let pass := flat_map (destroyEffects reply whitelist) (servicesList s) in
    trace s' =
      trace s
      ++ map (fun element => Log (LogDidNotReportBeforeTimeout element))
             (readyForCloseRegister s)
      ++ pass
      ++ [Log (LogStateChange (state s) State.Shutdown)] /\
    readyForCloseRegister s' = [] /\
    servicesList s' = survivors whitelist (servicesList s) /\
    state s' = State.Shutdown /\
    closeRequests pass =
      names (filter (fun service => negb (isOnWhitelist whitelist (GetName service)))
                    (servicesList s)) /\
    (forall service,
        In service (servicesList s) ->
        isOnWhitelist whitelist (GetName service) = false ->
        In (sendUnicastSyncExit (GetName service)) pass /\
        ~ In service (servicesList s') /\
        (closeSucceeds (reply (GetName service)) = true ->
         destroyEffects reply whitelist service = [sendUnicastSyncExit (GetName service)])).
Proof.
  intros s Hactive whitelist s' pass. subst s'.
  unfold onTimerMessage. rewrite Hactive, CloseServices_eq.
  cbn [trace readyForCloseRegister servicesList state].
  repeat (split; [reflexivity|]).
  split; [apply closeRequests_pass|].
  intros service Hin Hw. split; [|split].
  - apply in_flat_map. exists service. split; [exact Hin|].
    unfold destroyEffects. fold whitelist. rewrite Hw.
    destruct (closeSucceeds (reply (GetName service))); left; reflexivity.
  - unfold survivors. rewrite filter_In. fold whitelist. rewrite Hw.
    intros [_ H]; discriminate.
  - intros Hc. unfold destroyEffects. fold whitelist. now rewrite Hw, Hc.
Qed.

(** ** Acknowledgments *)

Lemma erase_remove_In (register : list string) (sender n : string) :
  In n (erase_remove register sender) <-> In n register /\ n <> sender.
Proof.
  induction register as [|x l IH]; simpl; [tauto|].
  destruct (String.eqb_spec x sender) as [->|Hne]; simpl; rewrite IH.
  - split; [tauto|]. intros [[<-|H] Hn]; [contradiction|tauto].
  - split; [|tauto]. intros [<-|[H Hn]]; [|tauto]. split; [now left|exact Hne].
Qed.

Lemma erase_remove_absent (register : list string) (sender : string) :
  ~ In sender register -> erase_remove register sender = register.
Proof.
  induction register as [|x l IH]; simpl; [reflexivity|]. intros Hn.
  destruct (String.eqb_spec x sender) as [->|Hne]; [tauto|].
  f_equal. apply IH. tauto.
Qed.

Lemma erase_remove_twice (register : list string) (sender : string) :
  erase_remove (erase_remove register sender) sender = erase_remove register sender.
Proof.
  apply erase_remove_absent. rewrite erase_remove_In. tauto.
Qed.

Lemma empty_true {A : Type} (l : list A) : empty l = true <-> l = [].
Proof. destruct l; simpl; split; congruence. Qed.

(** The three ways an acknowledgment can go. *)
Lemma readyToCloseHandler_eq (sender : string) (s : SystemManagerCommon) :
  readyToCloseHandler service_name reply sender s =
  if negb (empty (readyForCloseRegister s))
     && isActive (servicesPreShutdownRoutineTimeout s) then
    if empty (erase_remove (readyForCloseRegister s) sender) then
      mkSM State.Shutdown (updateReason s)
           (survivors (regularClose_whitelist service_name) (servicesList s)) []
           (mkTimer false) (lowBatteryShutdownDelay s)
           (phoneMode s) (tetheringMode s)
           (trace s
            ++ [Log (LogReadyToClose sender); Log LogAllServicesReady;
                TimerStop servicesPreShutdownRoutine]
            ++ flat_map (destroyEffects reply (regularClose_whitelist service_name))
                        (servicesList s)
            ++ [Log (LogStateChange (state s) State.Shutdown)])
    else
      mkSM (state s) (updateReason s) (servicesList s)
           (erase_remove (readyForCloseRegister s) sender)
           (servicesPreShutdownRoutineTimeout s) (lowBatteryShutdownDelay s)
           (phoneMode s) (tetheringMode s)
           (trace s ++ [Log (LogReadyToClose sender)])
  else s.
Proof.
  unfold readyToCloseHandler.
  destruct (negb (empty (readyForCloseRegister s))
            && isActive (servicesPreShutdownRoutineTimeout s)); [|reflexivity].
  cbv zeta.
  replace (readyForCloseRegister
             (with_readyForCloseRegister
                (erase_remove (readyForCloseRegister (emit (Log (LogReadyToClose sender)) s))
                              sender)
                (emit (Log (LogReadyToClose sender)) s)))
    with (erase_remove (readyForCloseRegister s) sender) by (destruct s; reflexivity).
  destruct (empty (erase_remove (readyForCloseRegister s) sender)) eqn:He.
  - rewrite CloseServices_eq. apply empty_true in He.
    destruct s as [st ur sl reg wd lb pm tm tr]. unfold_updates.
    cbn in He. rewrite He. cbn [map app]. now rewrite <- !app_assoc.
  - destruct s; reflexivity.
Qed.

(** C4.  While the watchdog of the round is armed, handling an
    acknowledgment leaves in the register exactly the names other than the
    sender's, in their order.  An acknowledgment for a name that is not
    pending leaves the register unchanged, and so does a second
    acknowledgment for the same name: the second one changes nothing, or at
    most adds its own log line.  When an acknowledgment empties the
    register, the watchdog is stopped and the destroy pass of the regular
    close runs, after which the state is [Shutdown]. *)
Theorem readyToCloseHandler_acknowledge :
  forall (sender : string) (s : SystemManagerCommon),
    let acknowledge := readyToCloseHandler service_name reply sender in
    let s' := acknowledge s in
    (isActive (servicesPreShutdownRoutineTimeout s) = true ->
     readyForCloseRegister s' = erase_remove (readyForCloseRegister s) sender /\
     forall n, In n (readyForCloseRegister s') <->
               In n (readyForCloseRegister s) /\ n <> sender) /\
    (~ In sender (readyForCloseRegister s) ->
     readyForCloseRegister s' = readyForCloseRegister s) /\
    (readyForCloseRegister (acknowledge s') = readyForCloseRegister s' /\
     (acknowledge s' = s' \/ acknowledge s' = emit (Log (LogReadyToClose sender)) s')) /\
    (isActive (servicesPreShutdownRoutineTimeout s) = true ->
     readyForCloseRegister s <> [] ->
     erase_remove (readyForCloseRegister s) sender = [] ->
     isActive (servicesPreShutdownRoutineTimeout s') = false /\
     trace s' =
       trace s
       ++ [Log (LogReadyToClose sender); Log LogAllServicesReady;
           TimerStop servicesPreShutdownRoutine]
       ++ flat_map (destroyEffects reply (regularClose_whitelist service_name))
                   (servicesList s)
       ++ [Log (LogStateChange (state s) State.Shutdown)] /\
     servicesList s' = survivors (regularClose_whitelist service_name) (servicesList s) /\
     readyForCloseRegister s' = [] /\
     state s' = State.Shutdown).
Proof.
  intros sender s acknowledge s'. subst s' acknowledge.
  split; [|split; [|split]].
  - intros Hactive.
    assert (Hreg : readyForCloseRegister (readyToCloseHandler service_name reply sender s)
                   = erase_remove (readyForCloseRegister s) sender).
    { rewrite readyToCloseHandler_eq, Hactive.
      destruct (readyForCloseRegister s) as [|x l] eqn:HR; [cbn; exact HR|].
      cbn [empty negb andb].
      destruct (empty (erase_remove (x :: l) sender)) eqn:He; [|reflexivity].
      apply empty_true in He. now rewrite He. }
    split; [exact Hreg|]. intros n. rewrite Hreg. apply erase_remove_In.
  - intros Hn. rewrite readyToCloseHandler_eq.
    destruct (readyForCloseRegister s) as [|x l] eqn:HR; [cbn; exact HR|].
    cbn [empty negb andb].
    destruct (isActive (servicesPreShutdownRoutineTimeout s)); [|exact HR].
    rewrite (erase_remove_absent _ _ Hn). reflexivity.
  - rewrite (readyToCloseHandler_eq sender s).
    destruct (negb (empty (readyForCloseRegister s))
              && isActive (servicesPreShutdownRoutineTimeout s)) eqn:Hg.
    + destruct (empty (erase_remove (readyForCloseRegister s) sender)) eqn:He.
      * split; [reflexivity|]. left. reflexivity.
      * rewrite readyToCloseHandler_eq.
        cbn [readyForCloseRegister servicesPreShutdownRoutineTimeout].
        apply andb_true_iff in Hg. destruct Hg as [_ Hactive].
        rewrite Hactive, He, erase_remove_twice, He. cbn [negb andb].
        split; [reflexivity|]. right. reflexivity.
    + rewrite readyToCloseHandler_eq, Hg. split; [reflexivity|]. left. reflexivity.
  - intros Hactive Hne Hempty. rewrite readyToCloseHandler_eq, Hactive, Hempty.
    destruct (readyForCloseRegister s); [contradiction|].
    cbn. repeat split; reflexivity.
Qed.

(** ** The lifecycle state *)

Lemma RebootHandler_eq (st : State.t) (reason : option UpdateReason)
      (s : SystemManagerCommon) :
  RebootHandler st reason s =
  mkSM st (match reason with Some r => r | Datatypes.None => updateReason s end)
       (rev (servicesList s))
       (readyForCloseRegister s ++ names (rev (servicesList s)))
       (mkTimer true) (mkTimer false) (phoneMode s) (tetheringMode s)
       (trace s
        ++ [Log LogInvokingClosingProcedure; TimerStop lowBatteryShutdownDelayTimer]
        ++ map (closeNotification CloseReason.Reboot) (names (rev (servicesList s)))
        ++ [TimerCreate servicesPreShutdownRoutine;
            TimerStart servicesPreShutdownRoutine;
            Log (LogStateChange (state s) st)]).
Proof.
  unfold RebootHandler. cbv zeta. rewrite CloseSystemHandler_eq.
  destruct s as [st0 ur sl reg wd lb pm tm tr], reason; unfold_updates;
    now rewrite <- !app_assoc.
Qed.

Lemma state_CloseSystemHandler (closeReason : CloseReason.t) (s : SystemManagerCommon) :
  state (CloseSystemHandler closeReason s) = state s.
Proof. now rewrite CloseSystemHandler_eq. Qed.

Lemma state_DestroyServices (whitelist : list string) (s : SystemManagerCommon) :
  state (DestroyServices reply whitelist s) = state s.
Proof. rewrite DestroyServices_eq. destruct s; reflexivity. Qed.

Lemma state_CloseServices (s : SystemManagerCommon) :
  state (CloseServices service_name reply s) = State.Shutdown.
Proof. now rewrite CloseServices_eq. Qed.

Lemma state_readyToCloseHandler (sender : string) (s : SystemManagerCommon) :
  state (readyToCloseHandler service_name reply sender s) = state s \/
  state (readyToCloseHandler service_name reply sender s) = State.Shutdown.
Proof.
  rewrite readyToCloseHandler_eq.
  destruct (negb (empty (readyForCloseRegister s))
            && isActive (servicesPreShutdownRoutineTimeout s)); [|now left].
  destruct (empty (erase_remove (readyForCloseRegister s) sender)); [now right|now left].
Qed.

(** No handler ever brings the state back to [Running]. *)
Lemma Execute_keeps_out_of_Running (store : Battery.t) (msg : Message)
      (s : SystemManagerCommon) :
  state (Execute service_name reply store msg s) = State.Running ->
  state s = State.Running.
Proof.
  unfold Execute. destruct (data msg) as [type closeReason reason| | | | | | | |mode|t| | |id|].
  - unfold onSystemManagerCmd. destruct (channel msg); [|auto].
    destruct type; rewrite ?RebootHandler_eq, ?UpdateSystemHandler_eq,
                     ?RestoreSystemHandler_eq, ?state_CloseSystemHandler; auto;
      try discriminate.
    + rewrite state_DestroyServices. destruct s; auto.
    + destruct s as [st ur sl reg wd lb pm tm tr].
      change (state (DestroyServices reply (restore_whitelist service_name)
                (with_servicesList (rev sl)
                   (emit (Log LogEnteringRestore) (mkSM st ur sl reg wd lb pm tm tr))))
              = State.Running -> st = State.Running).
      now rewrite state_DestroyServices.
  - unfold onBatteryStateChangeMessage, batteryNormalLevelAction,
      batteryShutdownLevelAction, batteryCriticalLevelAction.
    destruct (Battery.levelState store); rewrite ?state_CloseSystemHandler;
      destruct s; auto.
  - unfold onBatteryStatusChangeMessage.
    destruct (State.eqb (state s) State.Shutdown && Battery.is_discharging store);
      [discriminate|auto].
  - unfold onKbdMessage. destruct (State.eqb (state s) State.Shutdown);
      [discriminate|auto].
  - unfold onBatteryBrownoutMessage. rewrite state_CloseSystemHandler. destruct s; auto.
  - unfold onCellularCheckIfStartAllowedMessage.
    destruct (Battery.levelState store); destruct s; auto.
  - now rewrite state_CloseSystemHandler.
  - destruct (state_readyToCloseHandler (sender msg) s) as [-> | ->];
      [auto|discriminate].
  - unfold handlePhoneModeRequest, isTetheringEnabled.
    destruct s as [st ur sl reg wd lb pm [] tr]; auto.
  - unfold handleTetheringStateRequest, setTetheringMode.
    destruct (Battery.levelState store), t, s as [st ur sl reg wd lb pm [] tr]; auto.
  - unfold onCheckIfStartAllowedMessage.
    destruct (Battery.levelState store), s as [st ur sl reg wd [[]] pm tm tr]; auto.
  - destruct s; auto.
  - unfold onTimerMessage. destruct id.
    + destruct (isActive (servicesPreShutdownRoutineTimeout s)); [|auto].
      rewrite state_CloseServices. discriminate.
    + destruct (isActive (lowBatteryShutdownDelay s)); [|auto].
      now rewrite state_CloseSystemHandler.
  - auto.
Qed.

Lemma acknowledgeAll_cons (sender : string) (senders : list string)
      (s : SystemManagerCommon) :
  acknowledgeAll service_name reply (sender :: senders) s =
  acknowledgeAll service_name reply senders
    (readyToCloseHandler service_name reply sender s).
Proof. reflexivity. Qed.

Lemma acknowledgeAll_empty_register (senders : list string) :
  forall s,
    readyForCloseRegister s = [] ->
    acknowledgeAll service_name reply senders s = s.
Proof.
  induction senders as [|x l IH]; intros s Hs; [reflexivity|].
  rewrite acknowledgeAll_cons, readyToCloseHandler_eq, Hs.
  cbn [empty negb andb]. now apply IH.
Qed.

(** Acknowledgments covering every pending name complete the round. *)
Lemma acknowledgeAll_completes (senders : list string) :
  forall s,
    isActive (servicesPreShutdownRoutineTimeout s) = true ->
    readyForCloseRegister s <> [] ->
    incl (readyForCloseRegister s) senders ->
    state (acknowledgeAll service_name reply senders s) = State.Shutdown /\
    readyForCloseRegister (acknowledgeAll service_name reply senders s) = [].
Proof.
  induction senders as [|x l IH]; intros s Hactive Hne Hincl.
  - destruct (readyForCloseRegister s) as [|n r]; [contradiction|].
    destruct (Hincl n (or_introl eq_refl)).
  - rewrite acknowledgeAll_cons, readyToCloseHandler_eq, Hactive.
    destruct (readyForCloseRegister s) as [|n r] eqn:HR; [contradiction|].
    cbn [empty negb andb].
    destruct (empty (erase_remove (n :: r) x)) eqn:He.
    + rewrite acknowledgeAll_empty_register by reflexivity. split; reflexivity.
    + apply IH; cbn [servicesPreShutdownRoutineTimeout readyForCloseRegister].
      * exact Hactive.
      * intros H. rewrite H in He. discriminate.
      * intros m Hm. apply erase_remove_In in Hm. destruct Hm as [Hm Hmx].
        destruct (Hincl m Hm) as [->|]; [contradiction|assumption].
Qed.

Lemma loopShutdown_left (ticks : list (Tick)) (s : SystemManagerCommon) :
  state s <> State.Shutdown ->
  loopShutdown service_name reply ticks s = Some (ticks, s).
Proof. intros H. destruct ticks; cbn; destruct (state s); congruence. Qed.

Lemma loopRunning_left (ticks : list (Tick)) (s : SystemManagerCommon) :
  state s <> State.Running ->
  loopRunning service_name reply ticks s = Some (ticks, s).
Proof. intros H. destruct ticks; cbn; destruct (state s); congruence. Qed.

(** C5.  The transition rules of the lifecycle.  (1) A close command handled
    in state [Running] starts the round and leaves the state alone; the round
    completes, either when the watchdog fires or when acknowledgments
    covering every pending name have been handled, and its completion sets
    [Shutdown].  (2) In state [Shutdown] a discharging battery yields
    [ShutdownReady], both in the battery-status handler and in the shutdown
    loop, whatever the register holds and in particular when it is empty.
    (3) In state [Shutdown] a keyboard message yields [Reboot]; the shutdown
    loop hands it to its handler when it comes from the event manager and the
    battery is not discharging. *)
Theorem lifecycle_transitions :
  (forall (store : Battery.t) (msg : Message) closeReason reason
          (s : SystemManagerCommon),
      state s = State.Running ->
      channel msg = SystemManagerRequests ->
      data msg = SystemManagerCmd Code.CloseSystem closeReason reason ->
      let s1 := Execute service_name reply store msg s in
      s1 = CloseSystemHandler closeReason s /\
      state s1 = State.Running /\
      isActive (servicesPreShutdownRoutineTimeout s1) = true /\
      (forall store' timerMsg,
          data timerMsg = TimerMessage servicesPreShutdownRoutine ->
          state (Execute service_name reply store' timerMsg s1) = State.Shutdown) /\
      (forall senders,
          servicesList s <> [] ->
          incl (readyForCloseRegister s1) senders ->
          state (acknowledgeAll service_name reply senders s1) = State.Shutdown)) /\
  (forall (store : Battery.t) (s : SystemManagerCommon),
      state s = State.Shutdown ->
      Battery.state store = Battery.Discharging ->
      (forall msg,
          data msg = BatteryStatusChangeMessage ->
          state (Execute service_name reply store msg s) = State.ShutdownReady) /\
      (forall popped rest,
          loopShutdown service_name reply (mkTick store popped :: rest) s =
          Some (rest, set State.ShutdownReady s))) /\
  (forall (store : Battery.t) (msg : Message) (s : SystemManagerCommon),
      state s = State.Shutdown ->
      data msg = KbdMessage ->
      state (Execute service_name reply store msg s) = State.Reboot /\
      (Battery.state store <> Battery.Discharging ->
       sender msg = evt_manager service_name ->
       forall rest,
         loopShutdown service_name reply (mkTick store (Some msg) :: rest) s =
         Some (rest, set State.Reboot s))).
Proof.
  split; [|split].
  - intros store msg closeReason reason s Hrun Hch Hdata s1.
    assert (Hs1 : s1 = CloseSystemHandler closeReason s).
    { subst s1. unfold Execute, onSystemManagerCmd. now rewrite Hdata, Hch. }
    rewrite Hs1. split; [reflexivity|].
    split; [now rewrite state_CloseSystemHandler|].
    split; [now rewrite CloseSystemHandler_eq|].
    split.
    + intros store' timerMsg Ht. unfold Execute, onTimerMessage. rewrite Ht.
      rewrite CloseSystemHandler_eq at 1.
      cbn [servicesPreShutdownRoutineTimeout isActive].
      apply state_CloseServices.
    + intros senders Hne Hincl. apply acknowledgeAll_completes.
      * now rewrite CloseSystemHandler_eq.
      * rewrite CloseSystemHandler_eq. cbn [readyForCloseRegister].
        intros H. apply app_eq_nil in H. destruct H as [_ H].
        apply map_eq_nil in H. apply (f_equal (@rev Service)) in H.
        rewrite rev_involutive in H. contradiction.
      * exact Hincl.
  - intros b s Hst Hdis. split.
    + intros msg Hdata. unfold Execute, onBatteryStatusChangeMessage.
      unfold Battery.is_discharging. rewrite Hdata, Hst, Hdis. reflexivity.
    + intros popped rest. cbn [loopShutdown]. rewrite Hst.
      unfold Battery.is_discharging. cbn [store]. rewrite Hdis.
      apply loopShutdown_left. destruct s; discriminate.
  - intros b msg s Hst Hdata.
    assert (HE : Execute service_name reply b msg s = set State.Reboot s).
    { unfold Execute, onKbdMessage. now rewrite Hdata, Hst. }
    split; [rewrite HE; destruct s; reflexivity|].
    intros Hnd Hsender rest. cbn [loopShutdown]. rewrite Hst.
    unfold Battery.is_discharging. cbn [store pop].
    destruct (Battery.state b); [contradiction|].
    rewrite Hsender, String.eqb_refl. cbn [negb]. rewrite HE.
    apply loopShutdown_left. destruct s; discriminate.
Qed.

Lemma closeRequests_notifications (closeReason : CloseReason.t) (l : list string) :
  closeRequests (map (closeNotification closeReason) l) = [].
Proof. induction l; simpl; congruence. Qed.

(** C6 (what the code does).  A reboot or reboot-to-update command calls
    the closing procedure, which only stops the low-battery timer, reverses the registry,
    broadcasts the close reason and arms the watchdog; the state is set to
    [Reboot] or [RebootToUpdate] right after that call.  At that moment no
    service has been removed, every notified name is still pending, no close
    request has been sent, and both loops of [Run] are left without handling
    another message, so neither an acknowledgment nor the watchdog is handled
    any more. *)
Theorem reboot_request_flips_state_at_once :
  forall (store : Battery.t) (msg : Message) (code : Code.t)
         (closeReason : CloseReason.t) (reason : UpdateReason)
         (s : SystemManagerCommon),
    channel msg = SystemManagerRequests ->
    data msg = SystemManagerCmd code closeReason reason ->
    code = Code.Reboot \/ code = Code.RebootToUpdate ->
    let target := match code with
                  | Code.RebootToUpdate => State.RebootToUpdate
                  | _ => State.Reboot
                  end in
    let s' := Execute service_name reply store msg s in
    state s' = target /\
    servicesList s' = rev (servicesList s) /\
    readyForCloseRegister s' = readyForCloseRegister s ++ names (rev (servicesList s)) /\
    isActive (servicesPreShutdownRoutineTimeout s') = true /\
    trace s' =
      trace s
      ++ [Log LogInvokingClosingProcedure; TimerStop lowBatteryShutdownDelayTimer]
      ++ map (closeNotification CloseReason.Reboot) (names (rev (servicesList s)))
      ++ [TimerCreate servicesPreShutdownRoutine;
          TimerStart servicesPreShutdownRoutine;
          Log (LogStateChange (state s) target)] /\
    closeRequests (trace s') = closeRequests (trace s) /\
    forall ticks,
      loopRunning service_name reply ticks s' = Some (ticks, s') /\
      loopShutdown service_name reply ticks s' = Some (ticks, s').
Proof.
  intros b msg code closeReason reason s Hch Hdata Hcode target s'.
  assert (Hs' : s' = RebootHandler target
                       (match code with
                        | Code.RebootToUpdate => Some reason
                        | _ => Datatypes.None
                        end) s).
  { subst s' target. unfold Execute, onSystemManagerCmd. rewrite Hdata, Hch.
    destruct Hcode as [-> | ->]; reflexivity. }
  rewrite Hs', RebootHandler_eq.
  cbn [state servicesList readyForCloseRegister servicesPreShutdownRoutineTimeout
       isActive trace].
  repeat (split; [reflexivity|]).
  split.
  - rewrite !closeRequests_app, closeRequests_notifications. cbn.
    now rewrite app_nil_r.
  - intros ticks.
    split; [apply loopRunning_left | apply loopShutdown_left];
      subst target; destruct Hcode as [-> | ->]; discriminate.
Qed.

(** ** Leaving [Run] *)

Lemma loopRunning_exit (ticks : list Tick) :
  forall s ticks' s',
    loopRunning service_name reply ticks s = Some (ticks', s') ->
    state s' <> State.Running.
Proof.
  induction ticks as [|t rest IH]; intros s ticks' s'; cbn [loopRunning];
    destruct (state s) eqn:Hst; try (intros [= <- <-]; congruence).
  destruct (pop t); apply IH.
Qed.

Lemma loopShutdown_exit (ticks : list Tick) :
  forall s ticks' s',
    state s <> State.Running ->
    loopShutdown service_name reply ticks s = Some (ticks', s') ->
    state s' <> State.Running /\ state s' <> State.Shutdown.
Proof.
  induction ticks as [|t rest IH]; intros s ticks' s' Hrun; cbn [loopShutdown];
    destruct (state s) eqn:Hst; try (intros [= <- <-]; split; congruence).
  destruct (Battery.is_discharging (store t)).
  - apply IH. destruct s; discriminate.
  - destruct (pop t) as [msg|]; [|apply IH; congruence].
    destruct (negb (String.eqb (sender msg) (evt_manager service_name))).
    + apply IH. destruct s. cbn in *. congruence.
    + apply IH. intros H. apply Execute_keeps_out_of_Running in H. congruence.
Qed.

Lemma state_DestroySystemService (name : string) (s : SystemManagerCommon) :
  state (snd (DestroySystemService reply name s)) = state s.
Proof.
  unfold DestroySystemService. rewrite RequestServiceClose_eq.
  destruct (closeSucceeds (reply name)); [|destruct s; reflexivity].
  destruct s as [st ur sl reg wd lb pm tm tr]. cbn [emits servicesList].
  destruct (erase_first name sl); reflexivity.
Qed.

(** C7.  The switch that ends [Run] calls [exit(1)] exactly when the state
    is none of [ShutdownReady], [Reboot], [RebootToUpdate], and a [Run] that
    leaves its two loops never takes that branch, whatever messages and
    battery readings it is given and whatever state it starts from: it ends
    in one of the three power-manager calls, in the matching state. *)
Theorem Run_never_aborts :
  (forall s : SystemManagerCommon,
      fst (powerOffSystem s) = exit 1 <->
      state s <> State.ShutdownReady /\ state s <> State.Reboot /\
      state s <> State.RebootToUpdate) /\
  (forall (ticks : list Tick) (s s' : SystemManagerCommon) (t : Termination),
      Run service_name reply ticks s = Some (t, s') ->
      (forall status, t <> exit status) /\
      ((t = PowerManagerPowerOff /\ state s' = State.ShutdownReady) \/
       (t = PowerManagerReboot /\ state s' = State.Reboot) \/
       (t = PowerManagerRebootToUpdate (updateReason s') /\
        state s' = State.RebootToUpdate))).
Proof.
  split.
  - intros s. unfold powerOffSystem.
    destruct (state s); cbn; split; try discriminate; try (intros (? & ? & ?));
      try congruence; intros _; repeat split; discriminate.
  - intros ticks s s' t. unfold Run.
    destruct (loopRunning service_name reply ticks s) as [[ticks1 s1]|] eqn:H1;
      [|discriminate].
    destruct (loopShutdown service_name reply ticks1 s1) as [[ticks2 s2]|] eqn:H2;
      [|discriminate].
    apply loopRunning_exit in H1. apply (loopShutdown_exit _ _ _ _ H1) in H2.
    destruct H2 as [Hr Hs].
    pose proof (state_DestroySystemService (evt_manager service_name) s2) as Hd.
    destruct (DestroySystemService reply (evt_manager service_name) s2) as [found s3].
    cbn [snd] in Hd. cbv zeta. unfold powerOffSystem.
    replace (state (emit EndScheduler (emit CloseService s3))) with (state s2)
      by (rewrite <- Hd; destruct s3; reflexivity).
    destruct (state s2) eqn:Hst; try congruence; intros [= <- <-];
      (split; [discriminate|]).
    + left. split; [reflexivity|]. rewrite <- Hd. destruct s3; reflexivity.
    + right; left. split; [reflexivity|]. rewrite <- Hd. destruct s3; reflexivity.
    + right; right. split; [reflexivity|]. rewrite <- Hd. destruct s3; reflexivity.
Qed.

(** ** Battery policy *)

Lemma closeInvocations_app (a b : list Effect) :
  closeInvocations (a ++ b) = closeInvocations a + closeInvocations b.
Proof.
  induction a as [|e a IH]; simpl; [reflexivity|].
  destruct e as [line|msg target| | | | | | | | | | |];
    try (simpl; now rewrite IH).
  destruct line; simpl; now rewrite IH.
Qed.

Lemma closeInvocations_notifications (closeReason : CloseReason.t) (l : list string) :
  closeInvocations (map (closeNotification closeReason) l) = 0.
Proof. induction l; simpl; congruence. Qed.

Lemma closeInvocations_CloseSystemHandler (closeReason : CloseReason.t)
      (s : SystemManagerCommon) :
  closeInvocations (trace (CloseSystemHandler closeReason s)) =
  S (closeInvocations (trace s)).
Proof.
  rewrite CloseSystemHandler_eq. cbn [trace].
  rewrite closeInvocations_app. cbn [app closeInvocations].
  rewrite closeInvocations_app, closeInvocations_notifications. cbn. lia.
Qed.

Lemma onBatteryStateChangeMessage_Shutdown (b : Battery.t) (s : SystemManagerCommon) :
  Battery.levelState b = Battery.Shutdown ->
  onBatteryStateChangeMessage service_name b s =
  CloseSystemHandler CloseReason.LowBattery (emit (Log LogBatteryTooLow) s).
Proof. intros H. unfold onBatteryStateChangeMessage. now rewrite H. Qed.

(** C8 (what the code does).  Every battery-state-change message handled
    while the stored level is [Shutdown] runs the closing procedure with
    reason [LowBattery]: the handler keeps no record of the previous level,
    so each such message adds one invocation and one more broadcast to the
    whole registry, and [n] messages in a row add [n] invocations. *)
Theorem battery_shutdown_level_closes_on_every_message :
  forall (store : Battery.t) (msg : Message) (s : SystemManagerCommon),
    Battery.levelState store = Battery.Shutdown ->
    data msg = BatteryStateChangeMessage ->
    let handle := Execute service_name reply store msg in
    handle s = CloseSystemHandler CloseReason.LowBattery (emit (Log LogBatteryTooLow) s) /\
    closeInvocations (trace (handle s)) = S (closeInvocations (trace s)) /\
    closeBroadcastTargets (trace (handle s)) =
      closeBroadcastTargets (trace s) ++ names (rev (servicesList s)) /\
    forall n,
      closeInvocations (trace (Nat.iter n handle s)) = closeInvocations (trace s) + n.
Proof.
  intros b msg s Hlevel Hdata handle.
  assert (Hstep : forall s0, handle s0 =
            CloseSystemHandler CloseReason.LowBattery (emit (Log LogBatteryTooLow) s0)).
  { intros s0. subst handle. unfold Execute. rewrite Hdata.
    now apply onBatteryStateChangeMessage_Shutdown. }
  assert (Hcount : forall s0,
            closeInvocations (trace (handle s0)) = S (closeInvocations (trace s0))).
  { intros s0. rewrite Hstep, closeInvocations_CloseSystemHandler.
    destruct s0 as [st ur sl reg wd lb pm tm tr]. cbn [emit trace].
    rewrite closeInvocations_app. cbn. lia. }
  split; [apply Hstep|]. split; [apply Hcount|]. split.
  - rewrite Hstep, CloseSystemHandler_eq.
    destruct s as [st ur sl reg wd lb pm tm tr]. cbn [emit trace servicesList].
    rewrite !closeBroadcastTargets_app, closeBroadcastTargets_notifications.
    cbn [closeBroadcastTargets app]. now rewrite !app_nil_r.
  - induction n as [|n IH]; cbn [Nat.iter nat_rect]; [lia|].
    change (nat_rect (fun _ => SystemManagerCommon) s (fun _ => handle) n)
      with (Nat.iter n handle s).
    rewrite Hcount, IH. lia.
Qed.

(** ** Tethering *)

Lemma notifications_app (a b : list Effect) :
  notifications (a ++ b) = notifications a ++ notifications b.
Proof.
  induction a as [|e a IH]; simpl; [reflexivity|].
  destruct e; simpl; now rewrite IH.
Qed.

(** C9 (what the code does).  A tethering request handled while the battery
    level is not [Normal] is refused with a log line only: nothing is put on
    the bus and the tethering mode is left alone.  At level [Normal] a request
    to turn tethering on only sends the question to the application manager;
    a request to turn it off stores [Off] at once and then, when tethering was
    on, asks the event manager for a forced phone-mode update, and when it
    was already off, sends the question-abort to the application manager. *)
Theorem handleTetheringStateRequest_cases :
  forall (store : Battery.t) (request : Tethering.t) (s : SystemManagerCommon),
    let s' := handleTetheringStateRequest service_name store request s in
    (Battery.levelState store <> Battery.Normal ->
     s' = emits [Log LogTetheringRequested; Log LogTetheringRefused] s /\
     notifications (trace s') = notifications (trace s)) /\
    (Battery.levelState store = Battery.Normal -> request = Tethering.On ->
     s' = emits [Log LogTetheringRequested;
                 sendUnicast TetheringQuestionRequest (appmgr service_name)] s /\
     tetheringMode s' = tetheringMode s) /\
    (Battery.levelState store = Battery.Normal -> request = Tethering.Off ->
     tetheringMode s = Tethering.On ->
     s' = with_tetheringMode Tethering.Off
            (emits [Log LogTetheringRequested; Log LogDisablingTethering;
                    sendUnicast RequestPhoneModeForceUpdate (evt_manager service_name)] s)) /\
    (Battery.levelState store = Battery.Normal -> request = Tethering.Off ->
     tetheringMode s = Tethering.Off ->
     s' = emits [Log LogTetheringRequested;
                 sendUnicast TetheringQuestionAbort (appmgr service_name)] s).
Proof.
  intros b request s s'. subst s'. unfold handleTetheringStateRequest, setTetheringMode.
  destruct s as [st ur sl reg wd lb pm tm tr].
  split; [|split; [|split]].
  - intros Hlevel.
    destruct (Battery.levelState b); [contradiction| | |]; unfold_updates;
      (split; [now rewrite <- !app_assoc|]);
      rewrite !notifications_app; cbn [notifications]; now rewrite !app_nil_r.
  - intros -> ->. unfold_updates. split; [now rewrite <- !app_assoc|reflexivity].
  - intros -> -> Htm. cbn in Htm. subst tm. unfold_updates. cbn.
    now rewrite <- !app_assoc.
  - intros -> -> Htm. cbn in Htm. subst tm. unfold_updates. cbn.
    now rewrite <- !app_assoc.
Qed.

(** ** The low-battery shutdown delay *)

Lemma lowBattery_CloseSystemHandler (closeReason : CloseReason.t)
      (s : SystemManagerCommon) :
  lowBatteryShutdownDelay (CloseSystemHandler closeReason s) = mkTimer false.
Proof. now rewrite CloseSystemHandler_eq. Qed.

Lemma lowBattery_DestroyServices (whitelist : list string) (s : SystemManagerCommon) :
  lowBatteryShutdownDelay (DestroyServices reply whitelist s) = lowBatteryShutdownDelay s.
Proof. rewrite DestroyServices_eq. destruct s; reflexivity. Qed.

Lemma lowBattery_readyToCloseHandler (sender : string) (s : SystemManagerCommon) :
  lowBatteryShutdownDelay (readyToCloseHandler service_name reply sender s) =
  lowBatteryShutdownDelay s.
Proof.
  rewrite readyToCloseHandler_eq.
  destruct (negb (empty (readyForCloseRegister s))
            && isActive (servicesPreShutdownRoutineTimeout s)); [|reflexivity].
  destruct (empty (erase_remove (readyForCloseRegister s) sender)); reflexivity.
Qed.

(** Only the start-allowed query arms the low-battery timer. *)
Lemma Execute_keeps_lowBattery_timer_off (store : Battery.t) (msg : Message)
      (s : SystemManagerCommon) :
  data msg <> CheckIfStartAllowedMessage ->
  isActive (lowBatteryShutdownDelay s) = false ->
  isActive (lowBatteryShutdownDelay (Execute service_name reply store msg s)) = false.
Proof.
  intros Hmsg Hoff. unfold Execute.
  destruct (data msg) as [type closeReason reason| | | | | | | |mode|t| | |id|].
  - unfold onSystemManagerCmd. destruct (channel msg); [|exact Hoff].
    destruct type; rewrite ?RebootHandler_eq, ?UpdateSystemHandler_eq,
                     ?RestoreSystemHandler_eq, ?lowBattery_CloseSystemHandler;
      try reflexivity; try exact Hoff.
    + rewrite lowBattery_DestroyServices. destruct s; exact Hoff.
    + destruct s as [st ur sl reg wd lb pm tm tr].
      change (isActive (lowBatteryShutdownDelay
                (DestroyServices reply (restore_whitelist service_name)
                   (with_servicesList (rev sl)
                      (emit (Log LogEnteringRestore) (mkSM st ur sl reg wd lb pm tm tr)))))
              = false).
      rewrite lowBattery_DestroyServices. exact Hoff.
  - unfold onBatteryStateChangeMessage, batteryNormalLevelAction,
      batteryShutdownLevelAction, batteryCriticalLevelAction.
    destruct (Battery.levelState store); rewrite ?lowBattery_CloseSystemHandler;
      try reflexivity; destruct s; exact Hoff.
  - unfold onBatteryStatusChangeMessage.
    destruct (State.eqb (state s) State.Shutdown && Battery.is_discharging store);
      destruct s; exact Hoff.
  - unfold onKbdMessage. destruct (State.eqb (state s) State.Shutdown);
      destruct s; exact Hoff.
  - unfold onBatteryBrownoutMessage. now rewrite lowBattery_CloseSystemHandler.
  - unfold onCellularCheckIfStartAllowedMessage.
    destruct (Battery.levelState store); destruct s; exact Hoff.
  - now rewrite lowBattery_CloseSystemHandler.
  - now rewrite lowBattery_readyToCloseHandler.
  - unfold handlePhoneModeRequest, isTetheringEnabled.
    destruct s as [st ur sl reg wd lb pm [] tr]; exact Hoff.
  - unfold handleTetheringStateRequest, setTetheringMode.
    destruct (Battery.levelState store), t, s as [st ur sl reg wd lb pm [] tr];
      exact Hoff.
  - contradiction.
  - destruct s; exact Hoff.
  - unfold onTimerMessage. destruct id.
    + destruct (isActive (servicesPreShutdownRoutineTimeout s)); [|exact Hoff].
      rewrite CloseServices_eq. exact Hoff.
    + now rewrite Hoff.
  - exact Hoff.
Qed.

Lemma ExecuteAll_keeps_lowBattery_timer_off (msgs : list (Battery.t * Message)) :
  forall s,
    Forall (fun m => data (snd m) <> CheckIfStartAllowedMessage) msgs ->
    isActive (lowBatteryShutdownDelay s) = false ->
    isActive (lowBatteryShutdownDelay (ExecuteAll service_name reply msgs s)) = false.
Proof.
  induction msgs as [|m l IH]; intros s Hall Hoff; [exact Hoff|].
  inversion Hall as [|? ? Hm Hl]; subst.
  unfold ExecuteAll in *. cbn [fold_left]. apply IH; [exact Hl|].
  now apply Execute_keeps_lowBattery_timer_off.
Qed.

(** C10.  Every invocation of the closing procedure, whatever the reason,
    stops the low-battery shutdown-delay timer before it sends the first
    close notification.  After the invocation the timer is disarmed, so its
    message no longer runs the delayed low-battery close; and it stays
    disarmed through any later messages, as long as none of them is the
    start-allowed query, the only handler that arms it. *)
Theorem CloseSystemHandler_stops_lowBattery_timer_first :
  forall (closeReason : CloseReason.t) (s : SystemManagerCommon),
    let s' := CloseSystemHandler closeReason s in
    trace s' =
      trace s
      ++ [Log LogInvokingClosingProcedure; TimerStop lowBatteryShutdownDelayTimer]
      ++ map (closeNotification closeReason) (names (rev (servicesList s)))
      ++ [TimerCreate servicesPreShutdownRoutine;
          TimerStart servicesPreShutdownRoutine] /\
    isActive (lowBatteryShutdownDelay s') = false /\
    (forall store timerMsg,
        data timerMsg = TimerMessage lowBatteryShutdownDelayTimer ->
        Execute service_name reply store timerMsg s' = s') /\
    (forall msgs,
        Forall (fun m => data (snd m) <> CheckIfStartAllowedMessage) msgs ->
        let later := ExecuteAll service_name reply msgs s' in
        isActive (lowBatteryShutdownDelay later) = false /\
        forall store timerMsg,
          data timerMsg = TimerMessage lowBatteryShutdownDelayTimer ->
          Execute service_name reply store timerMsg later = later).
Proof.
  intros closeReason s s'.
  assert (Hoff : isActive (lowBatteryShutdownDelay s') = false)
    by (subst s'; now rewrite lowBattery_CloseSystemHandler).
  assert (Hidle : forall s0 b timerMsg,
             isActive (lowBatteryShutdownDelay s0) = false ->
             data timerMsg = TimerMessage lowBatteryShutdownDelayTimer ->
             Execute service_name reply b timerMsg s0 = s0).
  { intros s0 b timerMsg H0 Hd. unfold Execute, onTimerMessage. now rewrite Hd, H0. }
  split; [subst s'; now rewrite CloseSystemHandler_eq|].
  split; [exact Hoff|].
  split; [intros b timerMsg; now apply Hidle|].
  intros msgs Hall later.
  assert (Hlater : isActive (lowBatteryShutdownDelay later) = false)
    by (subst later; now apply ExecuteAll_keeps_lowBattery_timer_off).
  split; [exact Hlater|]. intros b timerMsg. now apply Hidle.
Qed.

End Proofs.

(** * Concrete runs *)

(** Services started in the order A, B, C are notified in the order C, B, A,
    and their names are pending in that order. *)
Lemma CloseSystemHandler_notifies_in_reverse_start_order_witness :
  exists s,
    StartSystemServices_loop replySuccess [svcA; svcB; svcC] fresh = Some s /\
    servicesList s = [svcA; svcB; svcC] /\
    closeBroadcastTargets (trace (CloseSystemHandler CloseReason.LowBattery s))
      = ["svcC"; "svcB"; "svcA"] /\
    readyForCloseRegister (CloseSystemHandler CloseReason.LowBattery s)
      = ["svcC"; "svcB"; "svcA"].
Proof.
  destruct (StartSystemServices_loop replySuccess [svcA; svcB; svcC] fresh)
    as [s|] eqn:H; [|vm_compute in H; discriminate H].
  exists s. split; [reflexivity|].
  destruct (CloseSystemHandler_notifies_in_reverse_start_order
              replySuccess [svcA; svcB; svcC] CloseReason.LowBattery fresh s H)
    as (Hsl & _ & _ & Hb & Hr).
  vm_compute in H. injection H as <-.
  split; [exact Hsl|]. split; [exact Hb | exact Hr].
Defined.

(** A regular close over the registry [EventManager; svcA; svcC] on a bus
    where no close request succeeds: only the event manager stays, and svcC
    was asked once and then killed. *)
Lemma destroy_pass_keeps_exactly_the_whitelist_witness :
  let s := running [svcEvtMgr; svcA; svcC] in
  let whitelist := regularClose_whitelist sample_names in
  let s' := DestroyServices replyTimeout whitelist s in
  let pass := flat_map (destroyEffects replyTimeout whitelist) (servicesList s) in
  In svcC (servicesList s) /\
  isOnWhitelist whitelist (GetName svcC) = false /\
  closeSucceeds (replyTimeout (GetName svcC)) = false /\
  servicesList s' = [svcEvtMgr] /\
  closeRequests pass = ["svcA"; "svcC"] /\
  ~ In svcC (servicesList s') /\
  exists before after,
    pass = before
           ++ [sendUnicastSyncExit "svcC";
               Log (LogServiceToCloseDidNotRespond "svcC");
               Log (LogDidNotRespondToKill "svcC")]
           ++ killEffects svcC ++ after.
Proof.
  intros s whitelist s' pass.
  assert (Hin : In svcC (servicesList s)) by (right; right; left; reflexivity).
  assert (Hw : isOnWhitelist whitelist (GetName svcC) = false) by reflexivity.
  assert (Hc : closeSucceeds (replyTimeout (GetName svcC)) = false) by reflexivity.
  destruct (destroy_pass_keeps_exactly_the_whitelist sample_names replyTimeout s)
    as (_ & _ & _ & H).
  destruct (H whitelist) as (Hs & _ & _ & Hreq & Hsvc).
  destruct (Hsvc svcC Hin Hw) as (Hout & _ & Hkill).
  split; [exact Hin|]. split; [exact Hw|]. split; [exact Hc|].
  split; [exact Hs|]. split; [exact Hreq|]. split; [exact Hout|].
  exact (Hkill Hc).
Defined.

(** C3, as stated, fails: svcA was notified and never acknowledged; when
    the watchdog fires it is logged, and the destroy pass then sends it the
    close request and removes it, so it is not left out of the pass. *)
Lemma watchdog_expiry_counterexample :
  let s := broadcastDone [svcA] in
  let s' := Execute sample_names replySuccess normalBattery watchdogFired s in
  isActive (servicesPreShutdownRoutineTimeout s) = true /\
  readyForCloseRegister s = ["svcA"] /\
  trace s' = trace s ++ [Log (LogDidNotReportBeforeTimeout "svcA");
                         sendUnicastSyncExit "svcA";
                         Log (LogStateChange State.Running State.Shutdown)] /\
  servicesList s' = [] /\
  ~ excludedFromDestroyPass "svcA"
      [Log (LogDidNotReportBeforeTimeout "svcA");
       sendUnicastSyncExit "svcA";
       Log (LogStateChange State.Running State.Shutdown)].
Proof.
  cbv zeta. repeat (split; [reflexivity|]).
  intros (H & _). exact (H (or_intror (or_introl eq_refl))).
Qed.

(** The watchdog fires with svcA and the event manager pending, on a bus
    where no close request is answered. *)
Lemma watchdog_expiry_logs_clears_and_destroys_witness :
  let s := broadcastDone [svcEvtMgr; svcA] in
  let s' := onTimerMessage sample_names replyTimeout servicesPreShutdownRoutine s in
  isActive (servicesPreShutdownRoutineTimeout s) = true /\
  readyForCloseRegister s = ["svcA"; "EventManager"] /\
  readyForCloseRegister s' = [] /\
  servicesList s' = [svcEvtMgr] /\
  state s' = State.Shutdown.
Proof.
  intros s s'.
  assert (Hactive : isActive (servicesPreShutdownRoutineTimeout s) = true) by reflexivity.
  destruct (watchdog_expiry_logs_clears_and_destroys sample_names replyTimeout s Hactive)
    as (_ & Hreg & Hsl & Hst & _).
  split; [exact Hactive|]. split; [reflexivity|].
  split; [exact Hreg|]. split; [exact Hsl | exact Hst].
Defined.

(** Three services pending; svcB acknowledges twice, then a stranger does. *)
Lemma readyToCloseHandler_acknowledge_witness :
  let s := broadcastDone [svcA; svcB; svcC] in
  let s' := readyToCloseHandler sample_names replySuccess "svcB" s in
  isActive (servicesPreShutdownRoutineTimeout s) = true /\
  readyForCloseRegister s = ["svcC"; "svcB"; "svcA"] /\
  readyForCloseRegister s' = ["svcC"; "svcA"] /\
  readyForCloseRegister (readyToCloseHandler sample_names replySuccess "svcB" s')
    = readyForCloseRegister s' /\
  (~ In "svcD" (readyForCloseRegister s) /\
   readyForCloseRegister (readyToCloseHandler sample_names replySuccess "svcD" s)
     = readyForCloseRegister s).
Proof.
  intros s s'.
  assert (Hactive : isActive (servicesPreShutdownRoutineTimeout s) = true) by reflexivity.
  assert (Habsent : ~ In "svcD" (readyForCloseRegister s)).
  { intros [H|[H|[H|[]]]]; discriminate H. }
  destruct (readyToCloseHandler_acknowledge sample_names replySuccess "svcB" s)
    as (Hrm & _ & (Htwice & _) & _).
  destruct (readyToCloseHandler_acknowledge sample_names replySuccess "svcD" s)
    as (_ & Hnot & _).
  split; [exact Hactive|]. split; [reflexivity|].
  split; [exact (proj1 (Hrm Hactive))|].
  split; [exact Htwice|].
  split; [exact Habsent | exact (Hnot Habsent)].
Defined.

(** The last pending acknowledgment stops the watchdog and runs the destroy
    pass. *)
Lemma readyToCloseHandler_last_acknowledgment :
  let s := broadcastDone [svcA] in
  let s' := readyToCloseHandler sample_names replySuccess "svcA" s in
  isActive (servicesPreShutdownRoutineTimeout s') = false /\
  servicesList s' = [] /\
  state s' = State.Shutdown /\
  trace s' = trace s ++ [Log (LogReadyToClose "svcA"); Log LogAllServicesReady;
                         TimerStop servicesPreShutdownRoutine;
                         sendUnicastSyncExit "svcA";
                         Log (LogStateChange State.Running State.Shutdown)].
Proof. cbv zeta. repeat split; reflexivity. Qed.

(** A close command, then the round completes (by the watchdog, or by both
    acknowledgments); a discharging battery in [Shutdown]; a key press in
    [Shutdown]. *)
Lemma lifecycle_transitions_witness :
  let s := running [svcA; svcB] in
  let s1 := Execute sample_names replySuccess normalBattery closeCmd s in
  let sd := Execute sample_names replySuccess normalBattery watchdogFired s1 in
  (state s = State.Running /\
   state s1 = State.Running /\
   state sd = State.Shutdown /\
   state (acknowledgeAll sample_names replySuccess ["svcA"; "svcB"] s1) = State.Shutdown) /\
  loopShutdown sample_names replySuccess [mkTick dischargingBattery None] sd
    = Some ([], set State.ShutdownReady sd) /\
  (Battery.state normalBattery <> Battery.Discharging /\
   loopShutdown sample_names replySuccess
                [mkTick normalBattery (Some (fromEvtMgr KbdMessage))] sd
     = Some ([], set State.Reboot sd)).
Proof.
  intros s s1 sd.
  destruct (lifecycle_transitions sample_names replySuccess) as (Hclose & Hready & Hkey).
  destruct (Hclose normalBattery closeCmd CloseReason.RegularPowerDown 0 s
                   eq_refl eq_refl eq_refl) as (_ & Hrun & _ & Hwd & Hack).
  assert (Hsd : state sd = State.Shutdown) by exact (Hwd normalBattery watchdogFired eq_refl).
  assert (Hnd : Battery.state normalBattery <> Battery.Discharging) by discriminate.
  split; [|split].
  - split; [reflexivity|]. split; [exact Hrun|]. split; [exact Hsd|].
    apply Hack; [discriminate|].
    intros n [<-|[<-|[]]]; [right; left; reflexivity | left; reflexivity].
  - exact (proj2 (Hready dischargingBattery sd Hsd eq_refl) None []).
  - split; [exact Hnd|].
    exact (proj2 (Hkey normalBattery (fromEvtMgr KbdMessage) sd Hsd eq_refl)
                 Hnd eq_refl []).
Defined.

(** C6, as stated, fails: the reboot command is handled in state [Running]
    with svcA and svcB registered.  When the handler returns the state is
    already [Reboot], both names are still pending, both services are still
    registered and no close request has been sent; [Run] then goes straight
    to the power manager without handling the acknowledgments that follow. *)
Lemma reboot_request_counterexample :
  let s := running [svcA; svcB] in
  let s' := Execute sample_names replySuccess normalBattery rebootCmd s in
  state s = State.Running /\
  state s' = State.Reboot /\
  readyForCloseRegister s' = ["svcB"; "svcA"] /\
  servicesList s' = [svcB; svcA] /\
  closeRequests (trace s') = [] /\
  ~ closeRoundCompleted sample_names s s' /\
  exists final,
    Run sample_names replySuccess
        [mkTick normalBattery (Some rebootCmd);
         mkTick normalBattery (Some (readyToClose "svcB"));
         mkTick normalBattery (Some (readyToClose "svcA"))] s
      = Some (PowerManagerReboot, final) /\
    servicesList final = [svcB; svcA] /\
    readyForCloseRegister final = ["svcB"; "svcA"] /\
    closeRequests (trace final) = ["EventManager"].
Proof.
  vm_compute. repeat (split; [reflexivity|]).
  split.
  - intros (H & _). discriminate H.
  - eexists. repeat split; reflexivity.
Qed.

(** The same reboot command, through the theorem. *)
Lemma reboot_request_flips_state_at_once_witness :
  let s := running [svcA; svcB] in
  let s' := Execute sample_names replySuccess normalBattery rebootCmd s in
  channel rebootCmd = SystemManagerRequests /\
  data rebootCmd = SystemManagerCmd Code.Reboot CloseReason.Reboot 0 /\
  state s' = State.Reboot /\
  readyForCloseRegister s' = ["svcB"; "svcA"] /\
  closeRequests (trace s') = [] /\
  loopRunning sample_names replySuccess
              [mkTick normalBattery (Some (readyToClose "svcB"))] s'
    = Some ([mkTick normalBattery (Some (readyToClose "svcB"))], s').
Proof.
  intros s s'.
  destruct (reboot_request_flips_state_at_once
              sample_names replySuccess normalBattery rebootCmd Code.Reboot
              CloseReason.Reboot 0 s eq_refl eq_refl (or_introl eq_refl))
    as (Hst & _ & Hreg & _ & _ & Hreq & Hloops).
  split; [reflexivity|]. split; [reflexivity|].
  split; [exact Hst|]. split; [exact Hreg|]. split; [exact Hreq|].
  exact (proj1 (Hloops [mkTick normalBattery (Some (readyToClose "svcB"))])).
Defined.

(** A power-down request, the watchdog, then a discharging battery: [Run]
    ends in the power-off call. *)
Lemma Run_never_aborts_witness :
  let ticks :=
    [mkTick normalBattery (Some (fromService "ApplicationManager" UserPowerDownRequest));
     mkTick normalBattery (Some watchdogFired);
     mkTick dischargingBattery None] in
  exists t final,
    Run sample_names replySuccess ticks (running [svcEvtMgr; svcA]) = Some (t, final) /\
    t = PowerManagerPowerOff /\
    state final = State.ShutdownReady /\
    servicesList final = [] /\
    forall status, t <> exit status.
Proof.
  intros ticks.
  destruct (Run sample_names replySuccess ticks (running [svcEvtMgr; svcA]))
    as [[t final]|] eqn:HRun; [|vm_compute in HRun; discriminate HRun].
  exists t, final. split; [reflexivity|].
  destruct (proj2 (Run_never_aborts sample_names replySuccess) ticks
                  (running [svcEvtMgr; svcA]) final t HRun) as [Hne _].
  vm_compute in HRun. injection HRun as <- <-.
  split; [reflexivity|]. split; [reflexivity|]. split; [reflexivity | exact Hne].
Defined.

(** C8, as stated, fails: the battery level is [Shutdown] when the first
    battery-state-change message arrives and is still [Shutdown] when the
    second one does; the closing procedure is entered on both, and svcA is
    sent the [LowBattery] close notification twice. *)
Lemma battery_shutdown_level_counterexample :
  let tick := fromEvtMgr BatteryStateChangeMessage in
  let s := running [svcA] in
  let s1 := Execute sample_names replySuccess shutdownLevelBattery tick s in
  let s2 := Execute sample_names replySuccess shutdownLevelBattery tick s1 in
  Battery.levelState shutdownLevelBattery = Battery.Shutdown /\
  closeInvocations (trace s) = 0 /\
  closeInvocations (trace s1) = 1 /\
  closeInvocations (trace s2) = 2 /\
  notifications (trace s2) =
    [(ServiceCloseReasonMessage CloseReason.LowBattery, "svcA");
     (ServiceCloseReasonMessage CloseReason.LowBattery, "svcA")] /\
  closeInvocations (trace s2) <> closeInvocations (trace s1).
Proof. cbv zeta. repeat (split; [reflexivity|]). discriminate. Qed.

(** Three battery-state-change messages at level [Shutdown]. *)
Lemma battery_shutdown_level_closes_on_every_message_witness :
  let tick := fromEvtMgr BatteryStateChangeMessage in
  let handle := Execute sample_names replySuccess shutdownLevelBattery tick in
  Battery.levelState shutdownLevelBattery = Battery.Shutdown /\
  data tick = BatteryStateChangeMessage /\
  closeInvocations (trace (handle (handle (handle (running [svcA; svcB]))))) = 3 /\
  closeBroadcastTargets (trace (handle (running [svcA; svcB]))) = ["svcB"; "svcA"].
Proof.
  intros tick handle.
  destruct (battery_shutdown_level_closes_on_every_message
              sample_names replySuccess shutdownLevelBattery tick
              (running [svcA; svcB]) eq_refl eq_refl) as (_ & _ & Hb & Hn).
  split; [reflexivity|]. split; [reflexivity|].
  split; [exact (Hn 3) | exact Hb].
Defined.

(** C9, as stated, fails twice.  With a critical battery the request to turn
    tethering on leaves two log lines and nothing on the bus, so the requester
    is not told.  With a normal battery and tethering already off, the
    request to turn it off sends the question-abort to the application
    manager and no forced phone-mode update. *)
Lemma tethering_request_counterexample :
  let s := running [svcA] in
  let refused := handleTetheringStateRequest sample_names criticalBattery Tethering.On s in
  let off := handleTetheringStateRequest sample_names normalBattery Tethering.Off s in
  Battery.levelState criticalBattery <> Battery.Normal /\
  trace refused = [Log LogTetheringRequested; Log LogTetheringRefused] /\
  notifications (trace refused) = [] /\
  ~ rejectionNotified s refused /\
  tetheringMode s = Tethering.Off /\
  notifications (trace off) = [(TetheringQuestionAbort, "ApplicationManager")] /\
  ~ In (RequestPhoneModeForceUpdate, "EventManager") (notifications (trace off)).
Proof.
  cbv zeta. split; [discriminate|]. split; [reflexivity|]. split; [reflexivity|].
  split; [intros H; exact (H eq_refl)|]. split; [reflexivity|]. split; [reflexivity|].
  intros [H|[]]. discriminate H.
Qed.

(** The four cases of a tethering request, each on a concrete manager. *)
Lemma handleTetheringStateRequest_cases_witness :
  let s := running [svcA] in
  let tethered := with_tetheringMode Tethering.On s in
  (Battery.levelState criticalBattery <> Battery.Normal /\
   notifications
     (trace (handleTetheringStateRequest sample_names criticalBattery Tethering.Off tethered))
     = []) /\
  (Battery.levelState normalBattery = Battery.Normal /\
   tetheringMode (handleTetheringStateRequest sample_names normalBattery Tethering.On s)
     = Tethering.Off) /\
  (tetheringMode tethered = Tethering.On /\
   handleTetheringStateRequest sample_names normalBattery Tethering.Off tethered
     = with_tetheringMode Tethering.Off
         (emits [Log LogTetheringRequested; Log LogDisablingTethering;
                 sendUnicast RequestPhoneModeForceUpdate "EventManager"] tethered)) /\
  (tetheringMode s = Tethering.Off /\
   handleTetheringStateRequest sample_names normalBattery Tethering.Off s
     = emits [Log LogTetheringRequested;
              sendUnicast TetheringQuestionAbort "ApplicationManager"] s).
Proof.
  intros s tethered.
  assert (Hlow : Battery.levelState criticalBattery <> Battery.Normal) by discriminate.
  destruct (handleTetheringStateRequest_cases sample_names criticalBattery Tethering.Off tethered)
    as (Hrefused & _).
  destruct (handleTetheringStateRequest_cases sample_names normalBattery Tethering.On s)
    as (_ & Hon & _).
  destruct (handleTetheringStateRequest_cases sample_names normalBattery Tethering.Off tethered)
    as (_ & _ & Hoff & _).
  destruct (handleTetheringStateRequest_cases sample_names normalBattery Tethering.Off s)
    as (_ & _ & _ & Habort).
  split; [split; [exact Hlow | exact (proj2 (Hrefused Hlow))]|].
  split; [split; [reflexivity | exact (proj2 (Hon eq_refl eq_refl))]|].
  split; [split; [reflexivity | exact (Hoff eq_refl eq_refl eq_refl)]|].
  split; [reflexivity | exact (Habort eq_refl eq_refl eq_refl)].
Defined.

(** The start-allowed query at level [Shutdown] arms the low-battery timer;
    a user power-down then begins the close; the timer is disarmed by it, stays
    disarmed while svcA acknowledges, and its message changes nothing. *)
Lemma CloseSystemHandler_stops_lowBattery_timer_first_witness :
  let armed :=
    Execute sample_names replySuccess shutdownLevelBattery
            (fromService "ApplicationManager" CheckIfStartAllowedMessage)
            (running [svcA; svcB]) in
  let s' := CloseSystemHandler CloseReason.RegularPowerDown armed in
  let msgs := [(shutdownLevelBattery, readyToClose "svcA")] in
  let later := ExecuteAll sample_names replySuccess msgs s' in
  isActive (lowBatteryShutdownDelay armed) = true /\
  Forall (fun m => data (snd m) <> CheckIfStartAllowedMessage) msgs /\
  isActive (lowBatteryShutdownDelay s') = false /\
  isActive (lowBatteryShutdownDelay later) = false /\
  Execute sample_names replySuccess shutdownLevelBattery lowBatteryDelayFired later = later /\
  closeInvocations (trace later) = 1.
Proof.
  intros armed s' msgs later.
  assert (Hall : Forall (fun m => data (snd m) <> CheckIfStartAllowedMessage) msgs)
    by (repeat constructor; discriminate).
  destruct (CloseSystemHandler_stops_lowBattery_timer_first
              sample_names replySuccess CloseReason.RegularPowerDown armed)
    as (_ & Hoff & _ & Hlater).
  destruct (Hlater msgs Hall) as (Hstill & Hidle).
  split; [reflexivity|]. split; [exact Hall|]. split; [exact Hoff|].
  split; [exact Hstill|].
  split; [exact (Hidle shutdownLevelBattery lowBatteryDelayFired eq_refl) | reflexivity].
Defined.

(** * Further properties *)

(** ** Lists of names and services *)

Lemma isOnWhitelist_In (l : list string) (n : string) :
  isOnWhitelist l n = true <-> In n l.
Proof.
  induction l as [|x l IH]; simpl; [split; [discriminate|tauto]|].
  destruct (String.eqb_spec x n) as [->|Hne]; [tauto|].
  rewrite IH. split; [tauto|]. intros [H|H]; [contradiction|exact H].
Qed.

Lemma erase_first_None (name : string) (l : list Service) :
  erase_first name l = Datatypes.None <-> ~ In name (names l).
Proof.
  induction l as [|x l IH]; simpl; [tauto|].
  destruct (String.eqb_spec (GetName x) name) as [Heq|Hne].
  - split; [discriminate|]. intros H. exfalso. apply H. now left.
  - destruct (erase_first name l) as [l'|].
    + split; [discriminate|]. intros H. exfalso.
      assert (Hn : ~ In name (names l)) by tauto.
      apply IH in Hn. discriminate.
    + split; [|reflexivity]. intros _ [H|H]; [contradiction|].
      now apply (proj1 IH eq_refl).
Qed.

Lemma erase_first_Some (name : string) (l : list Service) :
  forall l',
    erase_first name l = Some l' ->
    exists l1 x l2,
      l = l1 ++ x :: l2 /\ GetName x = name /\ ~ In name (names l1) /\ l' = l1 ++ l2.
Proof.
  induction l as [|x l IH]; intros l'; simpl; [discriminate|].
  destruct (String.eqb_spec (GetName x) name) as [Heq|Hne].
  - intros [= <-]. exists [], x, l. simpl. tauto.
  - destruct (erase_first name l) as [r|]; [|discriminate].
    intros [= <-]. destruct (IH r eq_refl) as (l1 & y & l2 & -> & Hy & Hn & ->).
    exists (x :: l1), y, l2. simpl. repeat split; try assumption.
    intros [H|H]; [contradiction|now apply Hn].
Qed.

Section MoreProofs.

Variable service_name : ServiceNames.
Variable reply : string -> ReturnCodes.t * ReturnCodes.t.

(** Reduces record updates to applications of [mkSM], arguments first. *)
Ltac record_updates :=
  cbv beta iota zeta delta
      [set emit emits with_state with_updateReason with_servicesList
       with_readyForCloseRegister with_servicesPreShutdownRoutineTimeout
       with_lowBatteryShutdownDelay with_phoneMode with_tetheringMode
       lowBatteryShutdownDelay_stop lowBatteryShutdownDelay_start
       servicesPreShutdownRoutineTimeout_stop
       state updateReason servicesList readyForCloseRegister
       servicesPreShutdownRoutineTimeout lowBatteryShutdownDelay
       phoneMode tetheringMode trace].

(** ** The whitelists *)

(** X1.  The three whitelists are nested: a name kept by a regular close is
    kept by a restore, and a name kept by a restore is kept by an update; the
    update whitelist is the restore whitelist plus the database service.  So
    whatever the registry, the services left by a regular close are among
    those left by a restore, which are among those left by an update. *)
Theorem whitelists_nested :
  forall (l : list Service) (service : Service),
    (In service (survivors (regularClose_whitelist service_name) l) ->
     In service (survivors (restore_whitelist service_name) l)) /\
    (In service (survivors (restore_whitelist service_name) l) ->
     In service (survivors (update_whitelist service_name) l)) /\
    (isOnWhitelist (update_whitelist service_name) (GetName service) = true <->
     isOnWhitelist (restore_whitelist service_name) (GetName service) = true \/
     GetName service = db service_name).
Proof.
  clear reply. intros l service. unfold survivors.
  rewrite !filter_In, !isOnWhitelist_In.
  unfold regularClose_whitelist, restore_whitelist, update_whitelist. simpl.
  intuition (subst; auto).
Qed.

(** ** The destroy pass, again *)

Lemma survivors_twice (whitelist : list string) (l : list Service) :
  survivors whitelist (survivors whitelist l) = survivors whitelist l.
Proof.
  unfold survivors. induction l as [|x l IH]; simpl; [reflexivity|].
  destruct (isOnWhitelist whitelist (GetName x)) eqn:Hw; simpl; rewrite ?Hw, IH;
    reflexivity.
Qed.

Lemma pass_over_survivors (whitelist : list string) (l : list Service) :
  flat_map (destroyEffects reply whitelist) (survivors whitelist l) =
  map (fun service => Log (LogDelayClosing (GetName service))) (survivors whitelist l).
Proof.
  unfold survivors. induction l as [|x l IH]; simpl; [reflexivity|].
  destruct (isOnWhitelist whitelist (GetName x)) eqn:Hw; simpl; [|exact IH].
  unfold destroyEffects at 1. rewrite Hw, IH. reflexivity.
Qed.

Lemma closeRequests_delay_logs (l : list Service) :
  closeRequests (map (fun service => Log (LogDelayClosing (GetName service))) l) = [].
Proof. induction l; simpl; congruence. Qed.

Lemma killCalls_delay_logs (l : list Service) :
  killCalls (map (fun service => Log (LogDelayClosing (GetName service))) l) = [].
Proof. induction l; simpl; congruence. Qed.

(** X2.  A destroy pass run a second time with the same whitelist removes
    nothing more: the registry is what the first pass left, and the second
    pass only logs the delayed closing of each survivor; it sends no close
    request and kills nobody. *)
Theorem DestroyServices_twice :
  forall (whitelist : list string) (s : SystemManagerCommon),
    let s1 := DestroyServices reply whitelist s in
    let s2 := DestroyServices reply whitelist s1 in
    let second := map (fun service => Log (LogDelayClosing (GetName service)))
                      (servicesList s1) in
    servicesList s2 = servicesList s1 /\
    trace s2 = trace s1 ++ second /\
    closeRequests second = [] /\
    killCalls second = [].
Proof.
  intros whitelist s s1 s2 second. subst s2 second.
  rewrite (DestroyServices_eq reply whitelist s1).
  assert (H1 : servicesList s1 = survivors whitelist (servicesList s)).
  { subst s1. rewrite DestroyServices_eq. destruct s; reflexivity. }
  rewrite H1, survivors_twice, pass_over_survivors.
  split; [destruct s1; reflexivity|]. split; [destruct s1; reflexivity|].
  split; [apply closeRequests_delay_logs | apply killCalls_delay_logs].
Qed.

Lemma killCalls_app (a b : list Effect) :
  killCalls (a ++ b) = killCalls a ++ killCalls b.
Proof.
  induction a as [|e a IH]; simpl; [reflexivity|].
  destruct e; simpl; now rewrite IH.
Qed.

Lemma killCalls_destroyEffects (whitelist : list string) (service : Service) :
  killCalls (destroyEffects reply whitelist service) =
  if isOnWhitelist whitelist (GetName service) then []
  else if closeSucceeds (reply (GetName service)) then []
       else [GetName service; GetName service].
Proof.
  unfold destroyEffects, killEffects.
  destruct (isOnWhitelist whitelist (GetName service)); [reflexivity|].
  destruct (closeSucceeds (reply (GetName service))); [reflexivity|].
  destruct (ReturnCodes.is_success (DeinitHandler service)); reflexivity.
Qed.

(** X3.  The destroy pass touches nothing but the registry and the trace:
    state, update reason, pending register, both timers, phone mode and
    tethering mode are as before, and the earlier trace is kept.  Every
    registered service is either kept or sent one close request, so the
    registry shrinks by the number of close requests; and on a bus where
    every close request succeeds the pass calls into no service at all. *)
Theorem DestroyServices_frame :
  forall (whitelist : list string) (s : SystemManagerCommon),
    let s' := DestroyServices reply whitelist s in
    let pass := flat_map (destroyEffects reply whitelist) (servicesList s) in
    state s' = state s /\
    updateReason s' = updateReason s /\
    readyForCloseRegister s' = readyForCloseRegister s /\
    servicesPreShutdownRoutineTimeout s' = servicesPreShutdownRoutineTimeout s /\
    lowBatteryShutdownDelay s' = lowBatteryShutdownDelay s /\
    phoneMode s' = phoneMode s /\
    tetheringMode s' = tetheringMode s /\
    trace s' = trace s ++ pass /\
    List.length (servicesList s) =
      List.length (servicesList s') + List.length (closeRequests pass) /\
    ((forall service, In service (servicesList s) ->
                      closeSucceeds (reply (GetName service)) = true) ->
     killCalls pass = []).
Proof.
  intros whitelist s s' pass. subst s' pass. rewrite DestroyServices_eq.
  destruct s as [st ur sl reg wd lb pm tm tr].
  cbn [with_servicesList emits state updateReason servicesList readyForCloseRegister
       servicesPreShutdownRoutineTimeout lowBatteryShutdownDelay phoneMode
       tetheringMode trace].
  repeat (split; [reflexivity|]). split.
  - rewrite closeRequests_pass. unfold survivors, names. rewrite List.length_map.
    induction sl as [|x l IH]; simpl; [reflexivity|].
    destruct (isOnWhitelist whitelist (GetName x)); simpl; lia.
  - intros Hall. induction sl as [|x l IH]; [reflexivity|].
    cbn [flat_map]. rewrite killCalls_app, killCalls_destroyEffects.
    rewrite (Hall x (or_introl eq_refl)), IH.
    + destruct (isOnWhitelist whitelist (GetName x)); reflexivity.
    + intros y Hy. apply Hall. now right.
Qed.

(** ** [DestroySystemService] *)

Lemma DestroySystemService_eq (name : string) (s : SystemManagerCommon) :
  DestroySystemService reply name s =
  if closeSucceeds (reply name) then
    match erase_first name (servicesList s) with
    | Some l => (true, with_servicesList l (emits [sendUnicastSyncExit name] s))
    | Datatypes.None =>
        (false, emits [sendUnicastSyncExit name; Log (LogNoSuchService name)] s)
    end
  else
    (false, emits [sendUnicastSyncExit name;
                   Log (closeFailureLog (reply name) name)] s).
Proof.
  unfold DestroySystemService. rewrite RequestServiceClose_eq.
  destruct (closeSucceeds (reply name)); [|reflexivity].
  destruct s as [st ur sl reg wd lb pm tm tr]. cbn [emits servicesList].
  destruct (erase_first name sl); [reflexivity|].
  rewrite emit_emits, emits_emits. reflexivity.
Qed.

(** X4.  [DestroySystemService] returns true exactly when the close request
    succeeds and a service of that name is registered.  When it returns
    false the registry is unchanged.  In every case it sends exactly one
    close request, to the name given, and, unlike the destroy pass, never
    runs the deinitialize-then-close sequence; the state is left alone. *)
Theorem DestroySystemService_result :
  forall (name : string) (s : SystemManagerCommon),
    let destroyed := fst (DestroySystemService reply name s) in
    let s' := snd (DestroySystemService reply name s) in
    (destroyed = true <->
     closeSucceeds (reply name) = true /\ In name (names (servicesList s))) /\
    (destroyed = false -> servicesList s' = servicesList s) /\
    closeRequests (trace s') = closeRequests (trace s) ++ [name] /\
    killCalls (trace s') = killCalls (trace s) /\
    state s' = state s /\
    readyForCloseRegister s' = readyForCloseRegister s.
Proof.
  intros name s destroyed s'. subst destroyed s'. rewrite DestroySystemService_eq.
  destruct (closeSucceeds (reply name)) eqn:Hc.
  - destruct (erase_first name (servicesList s)) as [l|] eqn:He.
    + destruct s as [st ur sl reg wd lb pm tm tr].
      cbn [fst snd with_servicesList emits servicesList trace state readyForCloseRegister] in *.
      split.
      { split; [intros _; split; [reflexivity|]|reflexivity].
        destruct (in_dec string_dec name (names sl)) as [Hin|Hn]; [exact Hin|].
        apply erase_first_None in Hn. congruence. }
      split; [discriminate|].
      rewrite closeRequests_app, killCalls_app. cbn. rewrite app_nil_r. tauto.
    + destruct s as [st ur sl reg wd lb pm tm tr].
      cbn [fst snd emits servicesList trace state readyForCloseRegister] in *.
      split.
      { split; [discriminate|]. intros [_ Hin]. apply erase_first_None in He.
        contradiction. }
      split; [reflexivity|].
      rewrite closeRequests_app, killCalls_app. cbn. rewrite app_nil_r. tauto.
  - destruct s as [st ur sl reg wd lb pm tm tr].
    cbn [fst snd emits servicesList trace state readyForCloseRegister].
    split; [split; [discriminate|intros [H _]; discriminate]|].
    split; [reflexivity|].
    rewrite closeRequests_app, killCalls_app. cbn. rewrite app_nil_r. tauto.
Qed.

(** X5.  When [DestroySystemService] returns true it has erased the first
    registered service of that name and nothing else: the services before
    it, none of which has the name, and the services after it stay in their
    order. *)
Theorem DestroySystemService_erases_first :
  forall (name : string) (s : SystemManagerCommon),
    fst (DestroySystemService reply name s) = true ->
    exists before service after,
      servicesList s = before ++ service :: after /\
      GetName service = name /\
      ~ In name (names before) /\
      servicesList (snd (DestroySystemService reply name s)) = before ++ after.
Proof.
  intros name s. rewrite DestroySystemService_eq.
  destruct (closeSucceeds (reply name)); [|discriminate].
  destruct (erase_first name (servicesList s)) as [l|] eqn:He; [|discriminate].
  intros _. destruct (erase_first_Some _ _ _ He) as (l1 & x & l2 & Hs & Hx & Hn & ->).
  exists l1, x, l2. split; [exact Hs|]. split; [exact Hx|]. split; [exact Hn|].
  destruct s; reflexivity.
Qed.

(** ** Starting the system services *)

Lemma StartSystemServices_loop_eq
      (start : string -> ReturnCodes.t * ReturnCodes.t) (sortedServices : list Service) :
  forall s0,
    StartSystemServices_loop start sortedServices s0 =
    if forallb (fun service => startAcknowledged (start (GetName service))) sortedServices
    then Some (with_servicesList (servicesList s0 ++ sortedServices)
                 (emits (flat_map startEffects sortedServices) s0))
    else Datatypes.None.
Proof.
  induction sortedServices as [|x l IH]; intros s0.
  - destruct s0. cbn [StartSystemServices_loop forallb flat_map]. record_updates.
    now rewrite !app_nil_r.
  - cbn [StartSystemServices_loop forallb flat_map].
    unfold RunSystemService, RunService. cbv zeta.
    fold (startAcknowledged (start (GetName x))).
    destruct (startAcknowledged (start (GetName x))); [|reflexivity].
    rewrite IH. cbn [andb].
    destruct (forallb (fun service => startAcknowledged (start (GetName service))) l);
      [|reflexivity].
    destruct s0 as [st ur sl reg wd lb pm tm tr]. record_updates.
    unfold startEffects. cbn [app]. now rewrite <- !app_assoc.
Qed.

(** X6.  The start-up loop comes through exactly when every service
    acknowledges its start (both the send and the response report success);
    a single service that does not makes the loop throw.  When it comes
    through, the services are registered after the ones already there, in
    the order given, each was started and then sent the start message, in
    that order, and nothing else of the manager has changed. *)
Theorem StartSystemServices_loop_succeeds_iff :
  forall (start : string -> ReturnCodes.t * ReturnCodes.t)
         (sortedServices : list Service) (s0 : SystemManagerCommon),
    ((exists s, StartSystemServices_loop start sortedServices s0 = Some s) <->
     (forall service, In service sortedServices ->
                      startAcknowledged (start (GetName service)) = true)) /\
    (forall s,
        StartSystemServices_loop start sortedServices s0 = Some s ->
        s = with_servicesList (servicesList s0 ++ sortedServices)
              (emits (flat_map startEffects sortedServices) s0)).
Proof.
  intros start l s0. rewrite StartSystemServices_loop_eq.
  destruct (forallb (fun service => startAcknowledged (start (GetName service))) l)
    eqn:Hall.
  - rewrite forallb_forall in Hall. split.
    + split; [intros _; exact Hall|]. intros _. eexists. reflexivity.
    + intros s [= <-]. reflexivity.
  - split.
    + split; [intros [s Hs]; discriminate|]. intros H.
      rewrite <- forallb_forall in H. congruence.
    + discriminate.
Qed.

(** ** Acknowledgments outside a round *)

(** X7.  Acknowledgments that arrive late are ignored: once [CloseServices]
    has run (after the watchdog or after the last acknowledgment), handling
    any number of acknowledgments changes nothing at all, not even the
    trace.  More generally an acknowledgment is ignored whenever no name is
    pending or the watchdog is not armed. *)
Theorem late_acknowledgments_ignored :
  (forall (senders : list string) (s : SystemManagerCommon),
      acknowledgeAll service_name reply senders (CloseServices service_name reply s)
      = CloseServices service_name reply s) /\
  (forall (sender : string) (s : SystemManagerCommon),
      readyForCloseRegister s = [] \/
      isActive (servicesPreShutdownRoutineTimeout s) = false ->
      readyToCloseHandler service_name reply sender s = s).
Proof.
  split.
  - intros senders s. apply acknowledgeAll_empty_register.
    now rewrite CloseServices_eq.
  - intros sender s H. rewrite readyToCloseHandler_eq.
    destruct H as [-> | ->]; [reflexivity|]. now rewrite andb_false_r.
Qed.

(** ** The shutdown loop *)

Lemma emits_nil (s : SystemManagerCommon) : emits [] s = s.
Proof. destruct s. record_updates. now rewrite app_nil_r. Qed.

(** X8.  While the state is [Shutdown] and the battery is not discharging,
    the loop of [Run] lets nobody but the event manager act: a turn with an
    empty mailbox changes nothing, and a message from any other sender,
    whatever it is, only leaves the "ignored" log line.  The loop is still
    in [Shutdown] after any number of such turns, so on such turns alone it
    never ends. *)
Theorem loopShutdown_ignores_other_senders :
  forall (ignored rest : list Tick) (s : SystemManagerCommon),
    state s = State.Shutdown ->
    forallb (ignoredOnShutdown service_name) ignored = true ->
    loopShutdown service_name reply (ignored ++ rest) s =
      loopShutdown service_name reply rest (emits (flat_map ignoredLog ignored) s) /\
    state (emits (flat_map ignoredLog ignored) s) = State.Shutdown /\
    servicesList (emits (flat_map ignoredLog ignored) s) = servicesList s /\
    loopShutdown service_name reply ignored s = Datatypes.None.
Proof.
  intros ignored rest s Hst Hall.
  assert (Hstep : forall rest' s0,
             state s0 = State.Shutdown ->
             loopShutdown service_name reply (ignored ++ rest') s0 =
             loopShutdown service_name reply rest' (emits (flat_map ignoredLog ignored) s0)).
  { clear s rest Hst. induction ignored as [|t l IH]; intros rest' s0 Hs0.
    - now rewrite emits_nil.
    - cbn [forallb] in Hall. apply andb_true_iff in Hall. destruct Hall as [Ht Hl].
      unfold ignoredOnShutdown in Ht. apply andb_true_iff in Ht.
      destruct Ht as [Hnd Hpop]. apply negb_true_iff in Hnd.
      cbn [app loopShutdown flat_map]. rewrite Hs0, Hnd. unfold ignoredLog at 1.
      destruct (pop t) as [msg|].
      + rewrite Hpop, emit_emits, (IH Hl), emits_emits; [reflexivity|].
        destruct s0; exact Hs0.
      + now rewrite (IH Hl). }
  assert (Hst' : state (emits (flat_map ignoredLog ignored) s) = State.Shutdown)
    by (destruct s; exact Hst).
  split; [now apply Hstep|]. split; [exact Hst'|]. split; [destruct s; reflexivity|].
  rewrite <- (app_nil_r ignored), (Hstep [] s Hst). cbn [loopShutdown].
  now rewrite Hst'.
Qed.

(** ** Transitions of the state *)

(** X9.  Handling a message moves the state to [ShutdownReady] in one case
    only: the state is [Shutdown], the battery is discharging and the message
    is a battery-status change.  Power-off is never entered straight from
    [Running], nor by any other message. *)
Theorem ShutdownReady_only_from_Shutdown :
  forall (store : Battery.t) (msg : Message) (s : SystemManagerCommon),
    state (Execute service_name reply store msg s) = State.ShutdownReady ->
    state s = State.ShutdownReady \/
    (state s = State.Shutdown /\
     Battery.state store = Battery.Discharging /\
     data msg = BatteryStatusChangeMessage).
Proof.
  intros b msg s. unfold Execute.
  destruct (data msg) as [type closeReason reason| | | | | | | |mode|t| | |id|].
  - unfold onSystemManagerCmd. destruct (channel msg); [|auto].
    destruct type; rewrite ?RebootHandler_eq, ?UpdateSystemHandler_eq,
                     ?RestoreSystemHandler_eq, ?state_CloseSystemHandler; auto;
      try discriminate.
    + rewrite state_DestroyServices. destruct s; auto.
    + destruct s as [st ur sl reg wd lb pm tm tr].
      change (state (DestroyServices reply (restore_whitelist service_name)
                (with_servicesList (rev sl)
                   (emit (Log LogEnteringRestore) (mkSM st ur sl reg wd lb pm tm tr))))
              = State.ShutdownReady ->
              st = State.ShutdownReady \/
              st = State.Shutdown /\ Battery.state b = Battery.Discharging /\
              SystemManagerCmd Code.Restore closeReason reason
              = BatteryStatusChangeMessage).
      rewrite state_DestroyServices. auto.
  - unfold onBatteryStateChangeMessage, batteryNormalLevelAction,
      batteryShutdownLevelAction, batteryCriticalLevelAction.
    destruct (Battery.levelState b); rewrite ?state_CloseSystemHandler;
      destruct s; auto.
  - unfold onBatteryStatusChangeMessage, Battery.is_discharging.
    destruct (State.eqb (state s) State.Shutdown) eqn:He; cbn [andb]; [|auto].
    destruct (Battery.state b); [|auto]. intros _. right.
    destruct (state s); try discriminate He. auto.
  - unfold onKbdMessage. destruct (State.eqb (state s) State.Shutdown);
      [discriminate|auto].
  - unfold onBatteryBrownoutMessage. rewrite state_CloseSystemHandler. destruct s; auto.
  - unfold onCellularCheckIfStartAllowedMessage.
    destruct (Battery.levelState b); destruct s; auto.
  - rewrite state_CloseSystemHandler. auto.
  - destruct (state_readyToCloseHandler service_name reply (sender msg) s) as [-> | ->];
      [auto|discriminate].
  - unfold handlePhoneModeRequest, isTetheringEnabled.
    destruct s as [st ur sl reg wd lb pm [] tr]; auto.
  - unfold handleTetheringStateRequest, setTetheringMode.
    destruct (Battery.levelState b), t, s as [st ur sl reg wd lb pm [] tr]; auto.
  - unfold onCheckIfStartAllowedMessage.
    destruct (Battery.levelState b), s as [st ur sl reg wd [[]] pm tm tr]; auto.
  - destruct s; auto.
  - unfold onTimerMessage. destruct id.
    + destruct (isActive (servicesPreShutdownRoutineTimeout s)); [|auto].
      rewrite state_CloseServices. discriminate.
    + destruct (isActive (lowBatteryShutdownDelay s)); [|auto].
      rewrite state_CloseSystemHandler. auto.
  - auto.
Qed.

(** X10.  A reboot-to-update command handled in state [Running] ends [Run]
    in the power manager's reboot-to-update call carrying the update reason
    of the command, whatever turns follow and whatever the event manager
    answers; the close reason of the command is not used.  A plain reboot
    command ends [Run] in the reboot call and leaves the stored update reason
    as it was. *)
Theorem reboot_command_ends_Run :
  forall (store : Battery.t) (msg : Message) (code : Code.t)
         (closeReason : CloseReason.t) (reason : UpdateReason)
         (rest : list Tick) (s : SystemManagerCommon),
    state s = State.Running ->
    channel msg = SystemManagerRequests ->
    data msg = SystemManagerCmd code closeReason reason ->
    (code = Code.RebootToUpdate ->
     exists s',
       Run service_name reply (mkTick store (Some msg) :: rest) s
         = Some (PowerManagerRebootToUpdate reason, s') /\
       updateReason s' = reason /\
       closeBroadcastTargets (trace s')
         = closeBroadcastTargets (trace s) ++ names (rev (servicesList s))) /\
    (code = Code.Reboot ->
     exists s',
       Run service_name reply (mkTick store (Some msg) :: rest) s
         = Some (PowerManagerReboot, s') /\
       updateReason s' = updateReason s).
Proof.
  intros b msg code closeReason reason rest s Hrun Hch Hdata.
  destruct s as [st ur sl reg wd lb pm tm tr]. cbn [state] in Hrun. subst st.
  split; intros ->.
  - unfold Run. cbn [loopRunning state pop store].
    unfold Execute, onSystemManagerCmd. rewrite Hdata, Hch, RebootHandler_eq.
    rewrite loopRunning_left by discriminate.
    rewrite loopShutdown_left by discriminate.
    rewrite DestroySystemService_eq.
    destruct (closeSucceeds (reply (evt_manager service_name)));
      [cbn [servicesList];
       destruct (erase_first (evt_manager service_name) (rev sl))|];
      eexists; (split; [reflexivity|]); (split; [reflexivity|]);
      record_updates;
      rewrite !closeBroadcastTargets_app, closeBroadcastTargets_notifications;
      cbn [closeBroadcastTargets app]; now rewrite !app_nil_r.
  - unfold Run. cbn [loopRunning state pop store].
    unfold Execute, onSystemManagerCmd. rewrite Hdata, Hch, RebootHandler_eq.
    rewrite loopRunning_left by discriminate.
    rewrite loopShutdown_left by discriminate.
    rewrite DestroySystemService_eq.
    destruct (closeSucceeds (reply (evt_manager service_name)));
      [cbn [servicesList];
       destruct (erase_first (evt_manager service_name) (rev sl))|];
      eexists; (split; reflexivity).
Qed.

(** ** The start-allowed query and the low-battery delay *)

Lemma lowBatteryTimerStarts_app (a b : list Effect) :
  lowBatteryTimerStarts (a ++ b) = lowBatteryTimerStarts a + lowBatteryTimerStarts b.
Proof.
  induction a as [|e a IH]; simpl; [reflexivity|].
  destruct e as [| | | | | | |id| | | | |]; try (simpl; now rewrite IH).
  destruct id; simpl; now rewrite IH.
Qed.

Lemma onCheckIfStartAllowedMessage_step (b : Battery.t) (s : SystemManagerCommon) :
  let s' := onCheckIfStartAllowedMessage service_name b s in
  notifications (trace s') =
    notifications (trace s)
    ++ [(StartAllowedMessage (startupTypeFor (Battery.levelState b)),
         appmgr service_name)] /\
  isActive (lowBatteryShutdownDelay s') =
    isActive (lowBatteryShutdownDelay s) || atShutdownLevel b /\
  lowBatteryTimerStarts (trace s') =
    lowBatteryTimerStarts (trace s)
    + (if atShutdownLevel b && negb (isActive (lowBatteryShutdownDelay s))
       then 1 else 0) /\
  closeInvocations (trace s') = closeInvocations (trace s) /\
  state s' = state s /\
  servicesList s' = servicesList s /\
  readyForCloseRegister s' = readyForCloseRegister s.
Proof.
  unfold onCheckIfStartAllowedMessage, atShutdownLevel, startupTypeFor.
  destruct s as [st ur sl reg wd [[]] pm tm tr], (Battery.levelState b);
    record_updates; cbn [negb isActive]; record_updates;
    repeat rewrite notifications_app; repeat rewrite lowBatteryTimerStarts_app;
    repeat rewrite closeInvocations_app;
    cbn; rewrite ?app_nil_r, ?Nat.add_0_r; repeat split; reflexivity.
Qed.

(** X11.  Whatever the battery level, the start-allowed query is answered
    with exactly one start-allowed message to the application manager, of
    the type that goes with the level.  It arms the low-battery delay only at
    level [Shutdown] and only when the delay is not armed already; it never
    enters the closing procedure and leaves state, registry and pending
    register alone. *)
Theorem CheckIfStartAllowed_answers_once :
  forall (store : Battery.t) (s : SystemManagerCommon),
    let s' := onCheckIfStartAllowedMessage service_name store s in
    notifications (trace s') =
      notifications (trace s)
      ++ [(StartAllowedMessage (startupTypeFor (Battery.levelState store)),
           appmgr service_name)] /\
    isActive (lowBatteryShutdownDelay s') =
      isActive (lowBatteryShutdownDelay s) || atShutdownLevel store /\
    lowBatteryTimerStarts (trace s') =
      lowBatteryTimerStarts (trace s)
      + (if atShutdownLevel store && negb (isActive (lowBatteryShutdownDelay s))
         then 1 else 0) /\
    closeInvocations (trace s') = closeInvocations (trace s) /\
    state s' = state s /\
    servicesList s' = servicesList s /\
    readyForCloseRegister s' = readyForCloseRegister s.
Proof.
  intros b s. unfold onCheckIfStartAllowedMessage, atShutdownLevel, startupTypeFor.
  destruct s as [st ur sl reg wd [[]] pm tm tr], (Battery.levelState b);
    record_updates; cbn [negb isActive]; record_updates;
    repeat rewrite notifications_app; repeat rewrite lowBatteryTimerStarts_app;
    repeat rewrite closeInvocations_app;
    cbn; rewrite ?app_nil_r, ?Nat.add_0_r; repeat split; reflexivity.
Qed.

(** X12.  However many start-allowed queries arrive in a row while the
    battery level is [Shutdown], the low-battery delay is started once, by
    the first of them, and is armed afterwards; every query is still
    answered, each with the low-battery startup type. *)
Theorem repeated_start_queries_arm_once :
  forall (store : Battery.t) (n : nat) (s : SystemManagerCommon),
    Battery.levelState store = Battery.Shutdown ->
    isActive (lowBatteryShutdownDelay s) = false ->
    let s' := Nat.iter (S n) (onCheckIfStartAllowedMessage service_name store) s in
    lowBatteryTimerStarts (trace s') = S (lowBatteryTimerStarts (trace s)) /\
    isActive (lowBatteryShutdownDelay s') = true /\
    notifications (trace s') =
      notifications (trace s)
      ++ repeat (StartAllowedMessage StartupType.LowBattery, appmgr service_name) (S n).
Proof.
  intros b n s Hlevel Hoff.
  assert (Hat : atShutdownLevel b = true) by (unfold atShutdownLevel; now rewrite Hlevel).
  induction n as [|n IH]; cbv zeta in *.
  - cbn [Nat.iter nat_rect].
    destruct (onCheckIfStartAllowedMessage_step b s) as (Hn & Ha & Hs & _).
    rewrite Hn, Ha, Hs, Hat, Hoff, Hlevel. cbn. repeat split; lia.
  - destruct IH as (IHs & IHa & IHn).
    change (Nat.iter (S (S n)) (onCheckIfStartAllowedMessage service_name b) s)
      with (onCheckIfStartAllowedMessage service_name b
              (Nat.iter (S n) (onCheckIfStartAllowedMessage service_name b) s)).
    destruct (onCheckIfStartAllowedMessage_step b
                (Nat.iter (S n) (onCheckIfStartAllowedMessage service_name b) s))
      as (Hn & Ha & Hs & _).
    rewrite Hn, Ha, Hs, IHs, IHa, IHn, Hat, Hlevel. cbn [negb andb orb startupTypeFor].
    split; [lia|]. split; [reflexivity|].
    rewrite <- app_assoc. f_equal.
    change (repeat (StartAllowedMessage StartupType.LowBattery, appmgr service_name) (S (S n)))
      with ((StartAllowedMessage StartupType.LowBattery, appmgr service_name)
              :: repeat (StartAllowedMessage StartupType.LowBattery, appmgr service_name) (S n)).
    now rewrite repeat_cons.
Qed.

(** X13.  When the low-battery delay fires while armed, the closing
    procedure runs with reason [LowBattery] and notifies the whole registry
    in reversed order; the delay is disarmed by that very run, so the same
    timer message handled again changes nothing: the periodic timer acts
    once per arming. *)
Theorem lowBattery_delay_fires_once :
  forall (store : Battery.t) (msg : Message) (s : SystemManagerCommon),
    data msg = TimerMessage lowBatteryShutdownDelayTimer ->
    isActive (lowBatteryShutdownDelay s) = true ->
    let s1 := Execute service_name reply store msg s in
    s1 = CloseSystemHandler CloseReason.LowBattery s /\
    notifications (trace s1) =
      notifications (trace s)
      ++ map (fun n => (ServiceCloseReasonMessage CloseReason.LowBattery, n))
             (names (rev (servicesList s))) /\
    isActive (lowBatteryShutdownDelay s1) = false /\
    forall store', Execute service_name reply store' msg s1 = s1.
Proof.
  intros b msg s Hdata Hon s1.
  assert (Hs1 : s1 = CloseSystemHandler CloseReason.LowBattery s).
  { subst s1. unfold Execute, onTimerMessage. now rewrite Hdata, Hon. }
  assert (Hoff : isActive (lowBatteryShutdownDelay s1) = false)
    by (rewrite Hs1; now rewrite lowBattery_CloseSystemHandler).
  split; [exact Hs1|]. split; [|split; [exact Hoff|]].
  - rewrite Hs1, CloseSystemHandler_eq. cbn [trace].
    rewrite !notifications_app. cbn [notifications app]. rewrite app_nil_r. f_equal.
    induction (names (rev (servicesList s))) as [|n l IH]; [reflexivity|].
    cbn. now rewrite IH.
  - intros b'. unfold Execute, onTimerMessage. now rewrite Hdata, Hoff.
Qed.

(** ** The watchdog after it has fired *)

(** X14.  Watchdog expiry does not stop the watchdog: it is still armed
    after [CloseServices], unlike after the last acknowledgment.  When it
    fires again, nothing more is removed and no close request is sent: the
    second run only logs the delayed closing of the services the first run
    kept and sets [Shutdown] once more. *)
Theorem watchdog_stays_armed_after_expiry :
  forall s : SystemManagerCommon,
    isActive (servicesPreShutdownRoutineTimeout s) = true ->
    let s1 := onTimerMessage service_name reply servicesPreShutdownRoutine s in
    let s2 := onTimerMessage service_name reply servicesPreShutdownRoutine s1 in
    isActive (servicesPreShutdownRoutineTimeout s1) = true /\
    servicesList s2 = servicesList s1 /\
    trace s2 =
      trace s1
      ++ map (fun service => Log (LogDelayClosing (GetName service))) (servicesList s1)
      ++ [Log (LogStateChange State.Shutdown State.Shutdown)] /\
    closeRequests (trace s2) = closeRequests (trace s1) /\
    state s2 = State.Shutdown /\
    readyForCloseRegister s2 = [].
Proof.
  intros s Hactive s1 s2.
  assert (Hs1 : s1 = CloseServices service_name reply s)
    by (subst s1; unfold onTimerMessage; now rewrite Hactive).
  assert (Hwd : isActive (servicesPreShutdownRoutineTimeout s1) = true)
    by (rewrite Hs1, CloseServices_eq; exact Hactive).
  assert (Hs2 : s2 = CloseServices service_name reply s1)
    by (subst s2; unfold onTimerMessage; now rewrite Hwd).
  assert (Hsl : servicesList s1
                = survivors (regularClose_whitelist service_name) (servicesList s))
    by (rewrite Hs1, CloseServices_eq; reflexivity).
  assert (Hst : state s1 = State.Shutdown) by (rewrite Hs1; apply state_CloseServices).
  assert (Hreg : readyForCloseRegister s1 = [])
    by (rewrite Hs1, CloseServices_eq; reflexivity).
  assert (Htr : trace s2 =
                trace s1
                ++ map (fun service => Log (LogDelayClosing (GetName service)))
                       (servicesList s1)
                ++ [Log (LogStateChange State.Shutdown State.Shutdown)]).
  { rewrite Hs2, CloseServices_eq. cbn [trace]. rewrite Hreg, Hst, Hsl.
    now rewrite pass_over_survivors. }
  split; [exact Hwd|]. split; [|split; [exact Htr|split; [|split]]].
  - rewrite Hs2, CloseServices_eq. cbn [servicesList]. rewrite Hsl.
    apply survivors_twice.
  - rewrite Htr, !closeRequests_app, closeRequests_delay_logs. cbn.
    now rewrite app_nil_r.
  - rewrite Hs2. apply state_CloseServices.
  - rewrite Hs2, CloseServices_eq. reflexivity.
Qed.

(** ** Closing more than once *)

(** X15.  A second invocation of the closing procedure reverses the registry
    back into start order and notifies every service again, this time first
    started first; every name is then pending twice.  One acknowledgment
    still clears a name for good, since it erases every occurrence. *)
Theorem CloseSystemHandler_twice :
  forall (r1 r2 : CloseReason.t) (s : SystemManagerCommon),
    let s2 := CloseSystemHandler r2 (CloseSystemHandler r1 s) in
    servicesList s2 = servicesList s /\
    readyForCloseRegister s2 =
      readyForCloseRegister s ++ names (rev (servicesList s)) ++ names (servicesList s) /\
    closeBroadcastTargets (trace s2) =
      closeBroadcastTargets (trace s)
      ++ names (rev (servicesList s)) ++ names (servicesList s) /\
    forall sender,
      ~ In sender
           (readyForCloseRegister (readyToCloseHandler service_name reply sender s2)).
Proof.
  intros r1 r2 s s2.
  assert (Hs2 : s2 =
    mkSM (state s) (updateReason s) (servicesList s)
         ((readyForCloseRegister s ++ names (rev (servicesList s)))
          ++ names (servicesList s))
         (mkTimer true) (mkTimer false) (phoneMode s) (tetheringMode s)
         ((trace s
           ++ [Log LogInvokingClosingProcedure; TimerStop lowBatteryShutdownDelayTimer]
           ++ map (closeNotification r1) (names (rev (servicesList s)))
           ++ [TimerCreate servicesPreShutdownRoutine;
               TimerStart servicesPreShutdownRoutine])
          ++ [Log LogInvokingClosingProcedure; TimerStop lowBatteryShutdownDelayTimer]
          ++ map (closeNotification r2) (names (servicesList s))
          ++ [TimerCreate servicesPreShutdownRoutine;
              TimerStart servicesPreShutdownRoutine])).
  { subst s2. rewrite (CloseSystemHandler_eq r2), (CloseSystemHandler_eq r1).
    cbn [state updateReason servicesList readyForCloseRegister phoneMode
         tetheringMode trace].
    now rewrite rev_involutive. }
  rewrite Hs2. cbn [servicesList readyForCloseRegister trace].
  split; [reflexivity|]. split; [now rewrite <- app_assoc|]. split.
  - rewrite !closeBroadcastTargets_app, !closeBroadcastTargets_notifications.
    cbn [closeBroadcastTargets app]. now rewrite !app_nil_r, <- app_assoc.
  - intros sender. rewrite readyToCloseHandler_eq.
    cbn [readyForCloseRegister servicesPreShutdownRoutineTimeout isActive].
    rewrite andb_true_r.
    remember ((readyForCloseRegister s ++ names (rev (servicesList s)))
              ++ names (servicesList s)) as R eqn:HR.
    destruct R as [|x R']; cbn [empty negb readyForCloseRegister]; [tauto|].
    destruct (empty (erase_remove (x :: R') sender));
      cbn [readyForCloseRegister]; [tauto|].
    rewrite (erase_remove_In reply). tauto.
Qed.

Lemma closeBroadcastTargets_destroyEffects (whitelist : list string) (l : list Service) :
  closeBroadcastTargets (flat_map (destroyEffects reply whitelist) l) = [].
Proof.
  induction l as [|x l IH]; [reflexivity|].
  cbn [flat_map]. rewrite closeBroadcastTargets_app, IH.
  unfold destroyEffects, killEffects.
  destruct (isOnWhitelist whitelist (GetName x)); [reflexivity|].
  destruct (closeSucceeds (reply (GetName x))); [reflexivity|].
  destruct (ReturnCodes.is_success (DeinitHandler x)); reflexivity.
Qed.

Lemma survivors_rev (whitelist : list string) (l : list Service) :
  survivors whitelist (rev l) = rev (survivors whitelist l).
Proof. unfold survivors. apply filter_rev. Qed.

(** X16.  The update and restore handlers reverse the registry as well, and
    send no close notification themselves.  A close that comes after one of
    them therefore reverses the survivors back: they are registered in start
    order again and are notified first started first, not last started
    first. *)
Theorem close_after_update_notifies_in_start_order :
  forall (closeReason : CloseReason.t) (s : SystemManagerCommon),
    let updated := UpdateSystemHandler service_name reply s in
    let restored := RestoreSystemHandler service_name reply s in
    (servicesList updated
       = rev (survivors (update_whitelist service_name) (servicesList s)) /\
     closeBroadcastTargets (trace updated) = closeBroadcastTargets (trace s) /\
     servicesList (CloseSystemHandler closeReason updated)
       = survivors (update_whitelist service_name) (servicesList s) /\
     closeBroadcastTargets (trace (CloseSystemHandler closeReason updated))
       = closeBroadcastTargets (trace s)
         ++ names (survivors (update_whitelist service_name) (servicesList s))) /\
    (servicesList restored
       = rev (survivors (restore_whitelist service_name) (servicesList s)) /\
     closeBroadcastTargets (trace restored) = closeBroadcastTargets (trace s) /\
     servicesList (CloseSystemHandler closeReason restored)
       = survivors (restore_whitelist service_name) (servicesList s) /\
     closeBroadcastTargets (trace (CloseSystemHandler closeReason restored))
       = closeBroadcastTargets (trace s)
         ++ names (survivors (restore_whitelist service_name) (servicesList s))).
Proof.
  intros closeReason s updated restored.
  assert (Hclose : forall s0 l,
             servicesList s0 = rev l ->
             servicesList (CloseSystemHandler closeReason s0) = l /\
             closeBroadcastTargets (trace (CloseSystemHandler closeReason s0))
             = closeBroadcastTargets (trace s0) ++ names l).
  { intros s0 l Hl. rewrite CloseSystemHandler_eq. cbn [servicesList trace].
    rewrite Hl, rev_involutive. split; [reflexivity|].
    rewrite !closeBroadcastTargets_app, closeBroadcastTargets_notifications.
    cbn [closeBroadcastTargets app]. now rewrite !app_nil_r. }
  assert (Hu : servicesList updated
               = rev (survivors (update_whitelist service_name) (servicesList s)) /\
               closeBroadcastTargets (trace updated) = closeBroadcastTargets (trace s)).
  { subst updated. rewrite UpdateSystemHandler_eq, DestroyServices_eq.
    destruct s as [st ur sl reg wd lb pm tm tr].
    cbn [with_servicesList emits emit servicesList trace].
    split; [apply survivors_rev|].
    rewrite !closeBroadcastTargets_app, closeBroadcastTargets_destroyEffects.
    cbn [closeBroadcastTargets]. now rewrite !app_nil_r. }
  assert (Hr : servicesList restored
               = rev (survivors (restore_whitelist service_name) (servicesList s)) /\
               closeBroadcastTargets (trace restored) = closeBroadcastTargets (trace s)).
  { subst restored. rewrite RestoreSystemHandler_eq, DestroyServices_eq.
    destruct s as [st ur sl reg wd lb pm tm tr].
    cbn [with_servicesList emits emit servicesList trace].
    split; [apply survivors_rev|].
    rewrite !closeBroadcastTargets_app, closeBroadcastTargets_destroyEffects.
    cbn [closeBroadcastTargets]. now rewrite !app_nil_r. }
  destruct Hu as [Hu1 Hu2], Hr as [Hr1 Hr2].
  destruct (Hclose updated _ Hu1) as [Hcu1 Hcu2].
  destruct (Hclose restored _ Hr1) as [Hcr1 Hcr2].
  rewrite Hu2 in Hcu2. rewrite Hr2 in Hcr2. tauto.
Qed.

(** ** The registry under messages *)

Lemma In_survivors (whitelist : list string) (l : list Service) (x : Service) :
  In x (survivors whitelist l) -> In x l.
Proof. unfold survivors. rewrite filter_In. tauto. Qed.

(** X17.  No message adds a service to the registry: whatever is handled,
    every service registered afterwards was registered before.  Handlers
    only reverse the registry or remove services from it. *)
Theorem Execute_registers_nothing :
  forall (store : Battery.t) (msg : Message) (s : SystemManagerCommon)
         (service : Service),
    In service (servicesList (Execute service_name reply store msg s)) ->
    In service (servicesList s).
Proof.
  intros b msg s x. unfold Execute.
  assert (Hclose : forall r s0,
             In x (servicesList (CloseSystemHandler r s0)) -> In x (servicesList s0)).
  { intros r s0. rewrite CloseSystemHandler_eq. cbn [servicesList].
    intros H. now apply in_rev. }
  assert (Hservices : forall s0,
             In x (servicesList (CloseServices service_name reply s0)) ->
             In x (servicesList s0)).
  { intros s0. rewrite CloseServices_eq. cbn [servicesList]. apply In_survivors. }
  destruct (data msg) as [type closeReason reason| | | | | | | |mode|t| | |id|].
  - unfold onSystemManagerCmd. destruct (channel msg); [|auto].
    destruct type; rewrite ?RebootHandler_eq, ?UpdateSystemHandler_eq,
                     ?RestoreSystemHandler_eq, ?DestroyServices_eq; auto.
    + apply Hclose.
    + destruct s as [st ur sl reg wd lb pm tm tr].
      cbn [with_servicesList emits emit servicesList].
      intros H. apply In_survivors in H. now apply in_rev.
    + destruct s as [st ur sl reg wd lb pm tm tr].
      cbn [with_servicesList emits emit servicesList].
      intros H. apply In_survivors in H. now apply in_rev.
    + cbn [servicesList]. intros H. now apply in_rev.
    + cbn [servicesList]. intros H. now apply in_rev.
  - unfold onBatteryStateChangeMessage, batteryNormalLevelAction,
      batteryShutdownLevelAction, batteryCriticalLevelAction.
    destruct (Battery.levelState b); try (destruct s; auto; fail).
    intros H. apply Hclose in H. destruct s; exact H.
  - unfold onBatteryStatusChangeMessage.
    destruct (State.eqb (state s) State.Shutdown && Battery.is_discharging b);
      destruct s; auto.
  - unfold onKbdMessage. destruct (State.eqb (state s) State.Shutdown);
      destruct s; auto.
  - unfold onBatteryBrownoutMessage. intros H. apply Hclose in H. destruct s; exact H.
  - unfold onCellularCheckIfStartAllowedMessage.
    destruct (Battery.levelState b); destruct s; auto.
  - apply Hclose.
  - rewrite readyToCloseHandler_eq.
    destruct (negb (empty (readyForCloseRegister s))
              && isActive (servicesPreShutdownRoutineTimeout s)); [|auto].
    destruct (empty (erase_remove (readyForCloseRegister s) (sender msg)));
      cbn [servicesList]; [apply In_survivors|auto].
  - unfold handlePhoneModeRequest, isTetheringEnabled.
    destruct s as [st ur sl reg wd lb pm [] tr]; auto.
  - unfold handleTetheringStateRequest, setTetheringMode.
    destruct (Battery.levelState b), t, s as [st ur sl reg wd lb pm [] tr]; auto.
  - unfold onCheckIfStartAllowedMessage.
    destruct (Battery.levelState b), s as [st ur sl reg wd [[]] pm tm tr]; auto.
  - destruct s; auto.
  - unfold onTimerMessage. destruct id.
    + destruct (isActive (servicesPreShutdownRoutineTimeout s)); [|auto].
      apply Hservices.
    + destruct (isActive (lowBatteryShutdownDelay s)); [|auto]. apply Hclose.
  - auto.
Qed.

(** ** Phone mode and tethering *)

(** X18.  A phone-mode request changes the phone mode exactly when
    tethering is off; while tethering is on the mode is kept and the
    application manager is told that the change is prohibited.  So once a
    tethering-enabled response has been handled (which turns tethering on
    whatever the battery level), a phone-mode request is refused, and it goes
    through again after a tethering-off request handled at battery level
    [Normal], which also asks the event manager for a forced update. *)
Theorem phone_mode_locked_while_tethering :
  forall (store : Battery.t) (mode mode' : PhoneMode.t) (s : SystemManagerCommon),
    (let s' := handlePhoneModeRequest service_name mode s in
     phoneMode s' = (if isTetheringEnabled s then phoneMode s else mode) /\
     notifications (trace s') =
       notifications (trace s)
       ++ (if isTetheringEnabled s
           then [(TetheringPhoneModeChangeProhibitedMessage, appmgr service_name)]
           else []) /\
     tetheringMode s' = tetheringMode s) /\
    (Battery.levelState store = Battery.Normal ->
     let s1 := enableTethering s in
     let s2 := handlePhoneModeRequest service_name mode s1 in
     let s3 := handleTetheringStateRequest service_name store Tethering.Off s2 in
     let s4 := handlePhoneModeRequest service_name mode' s3 in
     tetheringMode s1 = Tethering.On /\
     phoneMode s2 = phoneMode s /\
     tetheringMode s3 = Tethering.Off /\
     phoneMode s4 = mode' /\
     notifications (trace s4) =
       notifications (trace s)
       ++ [(TetheringPhoneModeChangeProhibitedMessage, appmgr service_name);
           (RequestPhoneModeForceUpdate, evt_manager service_name)]).
Proof.
  intros b mode mode' s. split.
  - unfold handlePhoneModeRequest, isTetheringEnabled.
    destruct s as [st ur sl reg wd lb pm [] tr]; record_updates;
      cbn [Tethering.eqb]; record_updates;
      repeat rewrite notifications_app; cbn [notifications];
      rewrite ?app_nil_r; repeat split; reflexivity.
  - intros Hlevel.
    unfold enableTethering, handlePhoneModeRequest, handleTetheringStateRequest,
      setTetheringMode, isTetheringEnabled.
    rewrite Hlevel.
    destruct s as [st ur sl reg wd lb pm tm tr]; record_updates;
      cbn [snd Tethering.eqb negb]; record_updates;
      cbn [Tethering.eqb negb]; record_updates;
      repeat rewrite notifications_app; cbn [notifications app];
      rewrite ?app_nil_r; repeat split; try reflexivity.
    now rewrite <- app_assoc.
Qed.

(** ** The slider *)

(** X19.  [translateSliderState] fails exactly on the key codes that are
    not slider positions, and on the three positions it is a bijection onto
    the phone modes: up is connected, middle is do-not-disturb, down is
    offline, two positions never give the same mode, and every mode is given
    by some position. *)
Theorem translateSliderState_bijection :
  (forall code,
      translateSliderState code = Datatypes.None <->
      exists n, code = KeyCodes.Other n) /\
  translateSliderState KeyCodes.SSwitchUp = Some PhoneMode.Connected /\
  translateSliderState KeyCodes.SSwitchMid = Some PhoneMode.DoNotDisturb /\
  translateSliderState KeyCodes.SSwitchDown = Some PhoneMode.Offline /\
  (forall code code' mode,
      translateSliderState code = Some mode ->
      translateSliderState code' = Some mode ->
      code = code') /\
  (forall mode, exists code, translateSliderState code = Some mode).
Proof.
  split; [|split; [reflexivity|split; [reflexivity|split; [reflexivity|split]]]].
  - intros [| | |n]; cbn; split; try discriminate.
    + intros [n H]; discriminate.
    + intros [n H]; discriminate.
    + intros [n H]; discriminate.
    + intros _. now exists n.
    + reflexivity.
  - intros [| | |n] [| | |n'] mode; cbn; congruence.
  - intros []; [exists KeyCodes.SSwitchUp | exists KeyCodes.SSwitchMid
                | exists KeyCodes.SSwitchDown]; reflexivity.
Qed.

(** ** CPU statistics *)

Lemma timerRestarts_app (a b : list CpuStatisticsEffect) :
  timerRestarts (a ++ b) = timerRestarts a + timerRestarts b.
Proof. induction a as [|e a IH]; simpl; [reflexivity|]. destruct e; simpl; now rewrite IH. Qed.

Lemma frequencyUpdates_app (a b : list CpuStatisticsEffect) :
  frequencyUpdates (a ++ b) = frequencyUpdates a ++ frequencyUpdates b.
Proof. induction a as [|e a IH]; simpl; [reflexivity|]. destruct e; simpl; now rewrite IH. Qed.

(** X20.  Over any series of invocations of the CPU-statistics timer
    handler, the timer is restarted with the period interval once, by the
    first invocation that finds the init flag clear, and never again; every
    invocation updates the statistics and passes the load it read to the
    power manager, in order. *)
Theorem CpuStatisticsTimerHandler_restarts_once :
  forall (loads : list nat) (c : CpuStatisticsState),
    let c' := fold_left (fun c load => CpuStatisticsTimerHandler load c) loads c in
    timerRestarts (cpuTrace c') =
      timerRestarts (cpuTrace c)
      + (if cpuStatisticsTimerInit c then 0
         else match loads with [] => 0 | _ :: _ => 1 end) /\
    frequencyUpdates (cpuTrace c') = frequencyUpdates (cpuTrace c) ++ loads /\
    (loads <> [] -> cpuStatisticsTimerInit c' = true).
Proof.
  induction loads as [|load loads IH]; intros c; cbv zeta.
  - cbn [fold_left]. destruct (cpuStatisticsTimerInit c);
      rewrite app_nil_r, Nat.add_0_r; repeat split; try reflexivity;
      intros H; now elim H.
  - cbn [fold_left]. specialize (IH (CpuStatisticsTimerHandler load c)).
    cbv zeta in IH. destruct IH as (IHr & IHf & IHi).
    rewrite IHr, IHf.
    assert (Hinit : cpuStatisticsTimerInit (CpuStatisticsTimerHandler load c) = true)
      by (destruct c as [[] tr]; reflexivity).
    rewrite Hinit. split; [|split].
    + destruct c as [[] tr]; cbn; rewrite ?timerRestarts_app; cbn; lia.
    + destruct c as [[] tr]; cbn; rewrite ?frequencyUpdates_app; cbn;
        rewrite ?app_nil_r, <- ?app_assoc; reflexivity.
    + intros _. destruct loads as [|l' loads']; [exact Hinit|].
      apply IHi. discriminate.
Qed.

(** ** Battery levels other than [Shutdown] *)

(** X21.  A battery-state-change message handled at a level other than
    [Shutdown] never enters the closing procedure and changes nothing of the
    manager but the trace: it switches the cellular module on at level
    [Normal] and off at the critical levels, and sends the application
    manager one critical-level notification, active at the critical levels
    only and carrying the charging flag of the level. *)
Theorem battery_state_change_without_close :
  forall (store : Battery.t) (s : SystemManagerCommon),
    Battery.levelState store <> Battery.Shutdown ->
    let s' := onBatteryStateChangeMessage service_name store s in
    let normal := match Battery.levelState store with
                  | Battery.Normal => true
                  | _ => false
                  end in
    let charging := match Battery.levelState store with
                    | Battery.CriticalCharging => true
                    | _ => false
                    end in
    s' = emits [Log (if normal then LogBatteryNormal else LogBatteryCritical);
                ChangeModulePowerState normal;
                sendUnicast (CriticalBatteryLevelNotification (negb normal) charging)
                            (appmgr service_name)] s /\
    closeInvocations (trace s') = closeInvocations (trace s) /\
    closeBroadcastTargets (trace s') = closeBroadcastTargets (trace s).
Proof.
  intros b s Hlevel. unfold onBatteryStateChangeMessage, batteryNormalLevelAction,
    batteryCriticalLevelAction.
  destruct (Battery.levelState b); [|contradiction| |];
    destruct s as [st ur sl reg wd lb pm tm tr]; record_updates;
    rewrite <- !app_assoc; cbn [app negb];
    rewrite closeInvocations_app, closeBroadcastTargets_app; cbn;
    rewrite ?app_nil_r, ?Nat.add_0_r; repeat split; reflexivity.
Qed.

(** ** A regular shutdown from end to end *)

Lemma survivors_single (n : string) (l : list Service) :
  NoDup (names l) ->
  survivors [n] l = [] \/ exists x, survivors [n] l = [x] /\ GetName x = n.
Proof.
  induction l as [|x l IH]; [now left|].
  cbn [names map]. intros Hnd. inversion Hnd as [|? ? Hx Hl]; subst.
  assert (Hw : isOnWhitelist [n] (GetName x) = String.eqb n (GetName x))
    by (cbn [isOnWhitelist]; destruct (String.eqb n (GetName x)); reflexivity).
  unfold survivors. cbn [filter]. rewrite Hw.
  destruct (String.eqb_spec n (GetName x)) as [Heq|Hne].
  - right. exists x. split; [|now symmetry]. f_equal.
    destruct (filter (fun service => isOnWhitelist [n] (GetName service)) l)
      as [|y r] eqn:Hf; [reflexivity|]. exfalso.
    assert (Hy : In y (filter (fun service => isOnWhitelist [n] (GetName service)) l))
      by (rewrite Hf; now left).
    apply filter_In in Hy. destruct Hy as [Hyl Hyn].
    apply isOnWhitelist_In in Hyn. destruct Hyn as [Hyn|[]].
    apply Hx. rewrite <- Heq, Hyn. now apply in_map.
  - apply IH. exact Hl.
Qed.

(** X22.  A regular shutdown from end to end.  With every registered
    service under a name of its own and an event manager that answers the
    close request, handling a user power-down request, then the watchdog
    message, then meeting a discharging battery ends [Run] in the power-off
    call with an empty registry: the destroy pass removes all but the event
    manager, and the event manager is destroyed once the loops are left. *)
Theorem regular_shutdown_empties_registry :
  forall (b1 b2 bd : Battery.t) (powerDown watchdog : Message)
         (popped : option Message) (s : SystemManagerCommon),
    state s = State.Running ->
    NoDup (names (servicesList s)) ->
    closeSucceeds (reply (evt_manager service_name)) = true ->
    data powerDown = UserPowerDownRequest ->
    data watchdog = TimerMessage servicesPreShutdownRoutine ->
    Battery.state bd = Battery.Discharging ->
    exists s',
      Run service_name reply
          [mkTick b1 (Some powerDown); mkTick b2 (Some watchdog); mkTick bd popped] s
        = Some (PowerManagerPowerOff, s') /\
      servicesList s' = [] /\
      state s' = State.ShutdownReady /\
      readyForCloseRegister s' = [].
Proof.
  intros b1 b2 bd powerDown watchdog popped s Hrun Hnd Hevt Hpd Hwd Hdis.
  assert (H1 : Execute service_name reply b1 powerDown s
               = CloseSystemHandler CloseReason.RegularPowerDown s)
    by (unfold Execute; now rewrite Hpd).
  remember (CloseSystemHandler CloseReason.RegularPowerDown s) as s1 eqn:Hs1.
  assert (Hs1st : state s1 = State.Running)
    by (rewrite Hs1, state_CloseSystemHandler; exact Hrun).
  assert (Hs1wd : isActive (servicesPreShutdownRoutineTimeout s1) = true)
    by (rewrite Hs1, CloseSystemHandler_eq; reflexivity).
  assert (Hs1sl : servicesList s1 = rev (servicesList s))
    by (rewrite Hs1, CloseSystemHandler_eq; reflexivity).
  assert (H2 : Execute service_name reply b2 watchdog s1
               = CloseServices service_name reply s1)
    by (unfold Execute, onTimerMessage; now rewrite Hwd, Hs1wd).
  remember (CloseServices service_name reply s1) as s2 eqn:Hs2.
  assert (Hs2st : state s2 = State.Shutdown)
    by (rewrite Hs2; apply state_CloseServices).
  assert (Hs2sl : servicesList s2
                  = survivors [evt_manager service_name] (rev (servicesList s)))
    by (rewrite Hs2, CloseServices_eq; cbn [servicesList]; now rewrite Hs1sl).
  assert (Hs2reg : readyForCloseRegister s2 = [])
    by (rewrite Hs2, CloseServices_eq; reflexivity).
  assert (Hloop1 : loopRunning service_name reply
                     [mkTick b1 (Some powerDown); mkTick b2 (Some watchdog);
                      mkTick bd popped] s
                   = Some ([mkTick bd popped], s2)).
  { cbn [loopRunning]. rewrite Hrun. cbn [pop store]. rewrite H1, Hs1st.
    rewrite H2, Hs2st. reflexivity. }
  assert (Hloop2 : loopShutdown service_name reply [mkTick bd popped] s2
                   = Some ([], set State.ShutdownReady s2)).
  { cbn [loopShutdown]. rewrite Hs2st. unfold Battery.is_discharging.
    cbn [store]. rewrite Hdis. destruct s2; reflexivity. }
  assert (Hnd2 : NoDup (names (rev (servicesList s)))).
  { unfold names. rewrite map_rev. now apply NoDup_rev. }
  unfold Run. rewrite Hloop1, Hloop2, DestroySystemService_eq, Hevt.
  replace (servicesList (set State.ShutdownReady s2))
    with (survivors [evt_manager service_name] (rev (servicesList s)))
    by (rewrite <- Hs2sl; destruct s2; reflexivity).
  destruct (survivors_single (evt_manager service_name) _ Hnd2) as [He | (x & He & Hx)];
    rewrite He in *; cbn [erase_first].
  - eexists. split; [destruct s2; reflexivity|].
    destruct s2. cbn in *. subst. repeat split; reflexivity.
  - rewrite Hx, String.eqb_refl.
    eexists. split; [destruct s2; reflexivity|].
    destruct s2. cbn in *. subst. repeat split; reflexivity.
Qed.

End MoreProofs.

(** * Concrete runs of the further properties *)

(** The event manager survives a regular close, hence an update. *)
Lemma whitelists_nested_witness :
  In svcEvtMgr (survivors (regularClose_whitelist sample_names) [svcA; svcEvtMgr]) /\
  In svcEvtMgr (survivors (update_whitelist sample_names) [svcA; svcEvtMgr]).
Proof.
  assert (H : In svcEvtMgr
                 (survivors (regularClose_whitelist sample_names) [svcA; svcEvtMgr]))
    by (vm_compute; left; reflexivity).
  split; [exact H|].
  destruct (whitelists_nested sample_names [svcA; svcEvtMgr] svcEvtMgr) as (H1 & H2 & _).
  exact (H2 (H1 H)).
Defined.

(** A destroy pass on a bus where every close request succeeds. *)
Lemma DestroyServices_frame_witness :
  let s := running [svcEvtMgr; svcA; svcB] in
  let whitelist := regularClose_whitelist sample_names in
  (forall service, In service (servicesList s) ->
                   closeSucceeds (replySuccess (GetName service)) = true) /\
  killCalls (flat_map (destroyEffects replySuccess whitelist) (servicesList s)) = [] /\
  List.length (servicesList s) =
    List.length (servicesList (DestroyServices replySuccess whitelist s))
    + List.length (closeRequests
                     (flat_map (destroyEffects replySuccess whitelist) (servicesList s))).
Proof.
  intros s whitelist.
  assert (Hall : forall service, In service (servicesList s) ->
                                 closeSucceeds (replySuccess (GetName service)) = true)
    by (intros service _; reflexivity).
  destruct (DestroyServices_frame replySuccess whitelist s)
    as (_ & _ & _ & _ & _ & _ & _ & _ & Hlen & Hkill).
  split; [exact Hall|]. split; [exact (Hkill Hall) | exact Hlen].
Defined.

(** Destroying svcA by name: it works on a bus that answers, and leaves
    the registry alone on a bus that does not. *)
Lemma DestroySystemService_result_witness :
  let s := running [svcA; svcB] in
  (closeSucceeds (replySuccess "svcA") = true /\ In "svcA" (names (servicesList s))) /\
  fst (DestroySystemService replySuccess "svcA" s) = true /\
  fst (DestroySystemService replyTimeout "svcA" s) = false /\
  servicesList (snd (DestroySystemService replyTimeout "svcA" s)) = servicesList s.
Proof.
  intros s.
  assert (Hok : closeSucceeds (replySuccess "svcA") = true
                /\ In "svcA" (names (servicesList s)))
    by (split; [reflexivity | left; reflexivity]).
  assert (Hfalse : fst (DestroySystemService replyTimeout "svcA" s) = false)
    by (vm_compute; reflexivity).
  destruct (DestroySystemService_result replySuccess "svcA" s) as (Hiff & _).
  destruct (DestroySystemService_result replyTimeout "svcA" s) as (_ & Hkeep & _).
  split; [exact Hok|]. split; [exact (proj2 Hiff Hok)|].
  split; [exact Hfalse | exact (Hkeep Hfalse)].
Defined.

(** Destroying svcB out of three services. *)
Lemma DestroySystemService_erases_first_witness :
  let s := running [svcA; svcB; svcC] in
  fst (DestroySystemService replySuccess "svcB" s) = true /\
  exists before service after,
    servicesList s = before ++ service :: after /\
    GetName service = "svcB" /\
    ~ In "svcB" (names before) /\
    servicesList (snd (DestroySystemService replySuccess "svcB" s)) = before ++ after.
Proof.
  intros s.
  assert (H : fst (DestroySystemService replySuccess "svcB" s) = true)
    by (vm_compute; reflexivity).
  split; [exact H|].
  exact (DestroySystemService_erases_first replySuccess "svcB" s H).
Defined.

(** Two services that both acknowledge their start. *)
Lemma StartSystemServices_loop_succeeds_iff_witness :
  (forall service, In service [svcA; svcB] ->
                   startAcknowledged (replySuccess (GetName service)) = true) /\
  (exists s, StartSystemServices_loop replySuccess [svcA; svcB] fresh = Some s) /\
  ~ (exists s, StartSystemServices_loop replyTimeout [svcA; svcB] fresh = Some s).
Proof.
  assert (Hall : forall service, In service [svcA; svcB] ->
                                 startAcknowledged (replySuccess (GetName service)) = true)
    by (intros service _; reflexivity).
  destruct (StartSystemServices_loop_succeeds_iff replySuccess [svcA; svcB] fresh)
    as (Hiff & _).
  destruct (StartSystemServices_loop_succeeds_iff replyTimeout [svcA; svcB] fresh)
    as (Hiff' & _).
  split; [exact Hall|]. split; [exact (proj2 Hiff Hall)|].
  intros Hex. pose proof (proj1 Hiff' Hex svcA (or_introl eq_refl)) as Hbad.
  vm_compute in Hbad. discriminate Hbad.
Defined.

(** An acknowledgment handled by a manager on which no close has begun. *)
Lemma late_acknowledgments_ignored_witness :
  (readyForCloseRegister (running [svcA]) = [] \/
   isActive (servicesPreShutdownRoutineTimeout (running [svcA])) = false) /\
  readyToCloseHandler sample_names replySuccess "svcA" (running [svcA]) = running [svcA].
Proof.
  assert (H : readyForCloseRegister (running [svcA]) = [] \/
              isActive (servicesPreShutdownRoutineTimeout (running [svcA])) = false)
    by (left; reflexivity).
  split; [exact H|].
  exact (proj2 (late_acknowledgments_ignored sample_names replySuccess)
               "svcA" (running [svcA]) H).
Defined.

(** In [Shutdown], a reboot command from the desktop service, an empty
    mailbox and a key message from svcA move nothing. *)
Lemma loopShutdown_ignores_other_senders_witness :
  let s := with_state State.Shutdown (running [svcEvtMgr]) in
  let ignored := [mkTick normalBattery (Some rebootCmd);
                  mkTick normalBattery Datatypes.None;
                  mkTick normalBattery (Some (fromService "svcA" KbdMessage))] in
  state s = State.Shutdown /\
  forallb (ignoredOnShutdown sample_names) ignored = true /\
  loopShutdown sample_names replySuccess ignored s = Datatypes.None /\
  state (emits (flat_map ignoredLog ignored) s) = State.Shutdown.
Proof.
  intros s ignored.
  assert (Hall : forallb (ignoredOnShutdown sample_names) ignored = true)
    by (vm_compute; reflexivity).
  destruct (loopShutdown_ignores_other_senders sample_names replySuccess ignored [] s
              eq_refl Hall) as (_ & Hst & _ & Hnone).
  split; [reflexivity|]. split; [exact Hall|]. split; [exact Hnone | exact Hst].
Defined.

(** The one way into [ShutdownReady]. *)
Lemma ShutdownReady_only_from_Shutdown_witness :
  let s := with_state State.Shutdown (running [svcEvtMgr]) in
  let msg := fromEvtMgr BatteryStatusChangeMessage in
  state (Execute sample_names replySuccess dischargingBattery msg s)
    = State.ShutdownReady /\
  (state s = State.ShutdownReady \/
   (state s = State.Shutdown /\
    Battery.state dischargingBattery = Battery.Discharging /\
    data msg = BatteryStatusChangeMessage)).
Proof.
  intros s msg.
  assert (H : state (Execute sample_names replySuccess dischargingBattery msg s)
              = State.ShutdownReady) by (vm_compute; reflexivity).
  split; [exact H|].
  exact (ShutdownReady_only_from_Shutdown sample_names replySuccess
           dischargingBattery msg s H).
Defined.

(** A reboot-to-update command with update reason 7, followed by an
    acknowledgment that is never handled. *)
Lemma reboot_command_ends_Run_witness :
  let msg := fromService "ServiceDesktop"
               (SystemManagerCmd Code.RebootToUpdate CloseReason.RegularPowerDown 7) in
  let s := running [svcA] in
  state s = State.Running /\
  exists s',
    Run sample_names replySuccess
        [mkTick normalBattery (Some msg);
         mkTick normalBattery (Some (readyToClose "svcA"))] s
      = Some (PowerManagerRebootToUpdate 7, s') /\
    updateReason s' = 7.
Proof.
  intros msg s. split; [reflexivity|].
  destruct (proj1 (reboot_command_ends_Run
                     sample_names replySuccess normalBattery msg Code.RebootToUpdate
                     CloseReason.RegularPowerDown 7
                     [mkTick normalBattery (Some (readyToClose "svcA"))] s
                     eq_refl eq_refl eq_refl) eq_refl)
    as (s' & HRun & Hreason & _).
  exists s'. split; [exact HRun | exact Hreason].
Defined.

(** Three start-allowed queries at level [Shutdown]. *)
Lemma repeated_start_queries_arm_once_witness :
  let s := running [svcA] in
  let s' := Nat.iter 3 (onCheckIfStartAllowedMessage sample_names shutdownLevelBattery) s in
  Battery.levelState shutdownLevelBattery = Battery.Shutdown /\
  isActive (lowBatteryShutdownDelay s) = false /\
  lowBatteryTimerStarts (trace s') = 1 /\
  isActive (lowBatteryShutdownDelay s') = true /\
  List.length (notifications (trace s')) = 3.
Proof.
  intros s s'.
  destruct (repeated_start_queries_arm_once sample_names shutdownLevelBattery 2 s
              eq_refl eq_refl) as (Hstarts & Harmed & Hn).
  split; [reflexivity|]. split; [reflexivity|]. split; [exact Hstarts|].
  split; [exact Harmed|]. subst s'. rewrite Hn. reflexivity.
Defined.

(** The low-battery delay fires on an armed manager with two services. *)
Lemma lowBattery_delay_fires_once_witness :
  let s := with_lowBatteryShutdownDelay (mkTimer true) (running [svcA; svcB]) in
  let s1 := Execute sample_names replySuccess shutdownLevelBattery lowBatteryDelayFired s in
  isActive (lowBatteryShutdownDelay s) = true /\
  notifications (trace s1) =
    [(ServiceCloseReasonMessage CloseReason.LowBattery, "svcB");
     (ServiceCloseReasonMessage CloseReason.LowBattery, "svcA")] /\
  Execute sample_names replySuccess normalBattery lowBatteryDelayFired s1 = s1.
Proof.
  intros s s1.
  destruct (lowBattery_delay_fires_once sample_names replySuccess shutdownLevelBattery
              lowBatteryDelayFired s eq_refl eq_refl) as (_ & Hn & _ & Hidle).
  split; [reflexivity|]. split; [exact Hn | exact (Hidle normalBattery)].
Defined.

(** The watchdog fires twice. *)
Lemma watchdog_stays_armed_after_expiry_witness :
  let s := broadcastDone [svcEvtMgr; svcA] in
  let s1 := onTimerMessage sample_names replySuccess servicesPreShutdownRoutine s in
  let s2 := onTimerMessage sample_names replySuccess servicesPreShutdownRoutine s1 in
  isActive (servicesPreShutdownRoutineTimeout s) = true /\
  isActive (servicesPreShutdownRoutineTimeout s1) = true /\
  servicesList s1 = [svcEvtMgr] /\
  servicesList s2 = [svcEvtMgr] /\
  closeRequests (trace s2) = ["svcA"].
Proof.
  intros s s1 s2.
  destruct (watchdog_stays_armed_after_expiry sample_names replySuccess s eq_refl)
    as (Hwd & Hsl & _ & Hreq & _).
  assert (Hs1 : servicesList s1 = [svcEvtMgr]) by (vm_compute; reflexivity).
  assert (Hr1 : closeRequests (trace s1) = ["svcA"]) by (vm_compute; reflexivity).
  split; [reflexivity|]. split; [exact Hwd|]. split; [exact Hs1|].
  split; [exact (eq_trans Hsl Hs1) | exact (eq_trans Hreq Hr1)].
Defined.

(** A brownout close after a low-battery close. *)
Lemma CloseSystemHandler_twice_witness :
  let s2 := CloseSystemHandler CloseReason.SystemBrownout
              (CloseSystemHandler CloseReason.LowBattery (running [svcA; svcB])) in
  servicesList s2 = [svcA; svcB] /\
  readyForCloseRegister s2 = ["svcB"; "svcA"; "svcA"; "svcB"] /\
  ~ In "svcA" (readyForCloseRegister
                 (readyToCloseHandler sample_names replySuccess "svcA" s2)).
Proof.
  intros s2.
  destruct (CloseSystemHandler_twice sample_names replySuccess CloseReason.LowBattery
              CloseReason.SystemBrownout (running [svcA; svcB]))
    as (Hsl & Hreg & _ & Hack).
  split; [exact Hsl|]. split; [exact Hreg | exact (Hack "svcA")].
Defined.

(** A close command registers nothing new. *)
Lemma Execute_registers_nothing_witness :
  let s := running [svcA; svcB] in
  In svcA (servicesList (Execute sample_names replySuccess normalBattery closeCmd s)) /\
  In svcA (servicesList s).
Proof.
  intros s.
  assert (H : In svcA (servicesList
                         (Execute sample_names replySuccess normalBattery closeCmd s)))
    by (vm_compute; right; left; reflexivity).
  split; [exact H|].
  exact (Execute_registers_nothing sample_names replySuccess normalBattery closeCmd
           s svcA H).
Defined.

(** Tethering is enabled, a switch to offline is refused, tethering is
    turned off, a switch to do-not-disturb goes through. *)
Lemma phone_mode_locked_while_tethering_witness :
  let s := running [svcA] in
  let s1 := enableTethering s in
  let s2 := handlePhoneModeRequest sample_names PhoneMode.Offline s1 in
  let s3 := handleTetheringStateRequest sample_names normalBattery Tethering.Off s2 in
  let s4 := handlePhoneModeRequest sample_names PhoneMode.DoNotDisturb s3 in
  Battery.levelState normalBattery = Battery.Normal /\
  phoneMode s2 = PhoneMode.Connected /\
  phoneMode s4 = PhoneMode.DoNotDisturb /\
  notifications (trace s4) =
    [(TetheringPhoneModeChangeProhibitedMessage, "ApplicationManager");
     (RequestPhoneModeForceUpdate, "EventManager")].
Proof.
  intros s s1 s2 s3 s4.
  destruct (proj2 (phone_mode_locked_while_tethering sample_names normalBattery
                     PhoneMode.Offline PhoneMode.DoNotDisturb s) eq_refl)
    as (_ & Hp2 & _ & Hp4 & Hn).
  split; [reflexivity|]. split; [exact Hp2|]. split; [exact Hp4 | exact Hn].
Defined.

(** A key that is not a slider position, and the middle position. *)
Lemma translateSliderState_bijection_witness :
  (exists n, KeyCodes.Other 5 = KeyCodes.Other n) /\
  translateSliderState (KeyCodes.Other 5) = Datatypes.None /\
  (translateSliderState KeyCodes.SSwitchMid = Some PhoneMode.DoNotDisturb ->
   KeyCodes.SSwitchMid = KeyCodes.SSwitchMid).
Proof.
  destruct translateSliderState_bijection as (Hnone & _ & Hmid & _ & Hinj & _).
  assert (Hex : exists n, KeyCodes.Other 5 = KeyCodes.Other n) by (exists 5; reflexivity).
  split; [exact Hex|]. split; [exact (proj2 (Hnone (KeyCodes.Other 5)) Hex)|].
  intros H. exact (Hinj _ _ _ H Hmid).
Defined.

(** Three invocations of the CPU-statistics handler. *)
Lemma CpuStatisticsTimerHandler_restarts_once_witness :
  let c' := fold_left (fun c load => CpuStatisticsTimerHandler load c)
                      [10; 20; 30] (mkCpu false []) in
  [10; 20; 30] <> [] /\
  cpuStatisticsTimerInit c' = true /\
  timerRestarts (cpuTrace c') = 1 /\
  frequencyUpdates (cpuTrace c') = [10; 20; 30].
Proof.
  intros c'.
  assert (Hne : [10; 20; 30] <> @nil nat) by discriminate.
  destruct (CpuStatisticsTimerHandler_restarts_once [10; 20; 30] (mkCpu false []))
    as (Hr & Hf & Hi).
  split; [exact Hne|]. split; [exact (Hi Hne)|]. split; [exact Hr | exact Hf].
Defined.

(** A battery-state change at a critical level. *)
Lemma battery_state_change_without_close_witness :
  let s := running [svcA] in
  let s' := onBatteryStateChangeMessage sample_names criticalBattery s in
  Battery.levelState criticalBattery <> Battery.Shutdown /\
  closeInvocations (trace s') = 0 /\
  notifications (trace s') =
    [(CriticalBatteryLevelNotification true false, "ApplicationManager")].
Proof.
  intros s s'.
  assert (Hlevel : Battery.levelState criticalBattery <> Battery.Shutdown) by discriminate.
  destruct (battery_state_change_without_close sample_names criticalBattery s Hlevel)
    as (Hs' & Hc & _).
  split; [exact Hlevel|]. split; [exact Hc|].
  subst s'. rewrite Hs'. reflexivity.
Defined.

(** Three services, the event manager among them, shut down regularly. *)
Lemma regular_shutdown_empties_registry_witness :
  let s := running [svcA; svcEvtMgr; svcB] in
  state s = State.Running /\
  NoDup (names (servicesList s)) /\
  closeSucceeds (replySuccess (evt_manager sample_names)) = true /\
  exists s',
    Run sample_names replySuccess
        [mkTick normalBattery (Some (fromService "ApplicationManager" UserPowerDownRequest));
         mkTick normalBattery (Some watchdogFired);
         mkTick dischargingBattery Datatypes.None] s
      = Some (PowerManagerPowerOff, s') /\
    servicesList s' = [].
Proof.
  intros s.
  assert (Hnd : NoDup (names (servicesList s))).
  { repeat constructor; cbn; intros H;
      repeat (destruct H as [H|H]; [discriminate H|]); exact H. }
  destruct (regular_shutdown_empties_registry sample_names replySuccess
              normalBattery normalBattery dischargingBattery
              (fromService "ApplicationManager" UserPowerDownRequest) watchdogFired
              Datatypes.None s eq_refl Hnd eq_refl eq_refl eq_refl eq_refl)
    as (s' & HRun & Hsl & _).
  split; [reflexivity|]. split; [exact Hnd|]. split; [reflexivity|].
  exists s'. split; [exact HRun | exact Hsl].
Defined.
